(** * CreateArchitect AI router: a shallow embedding and its properties

  The development follows the three JavaScript modules of the server:
  - [userProfile.js]: the reply-style store ([UserProfile]);
  - [aiRouter.js]: the chat, style and schematic routes ([AiRouter]);
  - [memory.js], [schematicGenerator.js], [tools/createSim.js] and
    [prompts.js], which the router imports ([Memory], and fields of [Env]).

  JavaScript values are the inductive [jsval]; a handler is a function of
  the request body and of the [World] (files, project store, the calls made
  so far), in a state-and-exception monad [M].  Everything the program does
  not decide itself (the two language models, the runtime's JSON codec, the
  prompt texts, the failures of the project store) is a field of [Env]. *)

From Stdlib Require Import String Ascii List ZArith Lia Floats Bool DecimalString.
From stdpp Require Import gmap strings.
Import ListNotations.

Set Warnings "-register-all".
Set Default Proof Using "Type".

Open Scope string_scope.

(** ** Strings

  A JavaScript string is a sequence of 16-bit code units; the model keeps
  the units below 256 (one [ascii] each).  Every string operation the
  program uses works unit by unit. *)
Module Str.

Definition nl : string := String "010"%char EmptyString.
Definition dq : string := String "034"%char EmptyString.

(** [s.includes(sub)] *)
Fixpoint includes (s sub : string) : bool :=
  String.prefix sub s ||
  match s with
  | EmptyString => false
  | String _ rest => includes rest sub
  end.

(** One code unit of [s.toLowerCase()]: A-Z and the Latin-1 capitals
    (U+00C0-U+00DE but U+00D7) move up by 32. *)
Definition lower_unit (c : ascii) : ascii :=
  let n := nat_of_ascii c in
  if (Nat.leb 65 n && Nat.leb n 90) ||
     (Nat.leb 192 n && Nat.leb n 222 && negb (Nat.eqb n 215))
  then ascii_of_nat (n + 32) else c.

Fixpoint toLowerCase (s : string) : string :=
  match s with
  | EmptyString => EmptyString
  | String c rest => String (lower_unit c) (toLowerCase rest)
  end.

(** White space of [trim] among the units below 256. *)
Definition is_space (c : ascii) : bool :=
  let n := nat_of_ascii c in
  (Nat.leb 9 n && Nat.leb n 13) || Nat.eqb n 32 || Nat.eqb n 160.

Fixpoint trimStart (s : string) : string :=
  match s with
  | EmptyString => EmptyString
  | String c rest => if is_space c then trimStart rest else s
  end.

Fixpoint trimEnd (s : string) : string :=
  match s with
  | EmptyString => EmptyString
  | String c rest =>
      match trimEnd rest with
      | EmptyString => if is_space c then EmptyString else String c EmptyString
      | r => String c r
      end
  end.

Definition trim (s : string) : string := trimEnd (trimStart s).

(** [s.slice(0, n)] for [n >= 0] *)
Definition slice0 (n : nat) (s : string) : string := String.substring 0 n s.

(** [parts.join(sep)] *)
Definition join (sep : string) (parts : list string) : string :=
  String.concat sep parts.

Definition nonempty (s : string) : bool :=
  match s with EmptyString => false | _ => true end.

(** The lines of a template literal, a line feed between two of them. *)
Definition lines (ls : list string) : string := join nl ls.

Definition quoted (s : string) : string := dq +:+ s +:+ dq.

End Str.

(** ** JavaScript values *)
Module JS.

(** Numbers are IEEE binary64, as in the language. *)
Inductive jsval : Type :=
| JUndefined
| JNull
| JBool (b : bool)
| JNum (f : float)
| JStr (s : string)
| JArr (items : list jsval)
| JObj (props : list (string * jsval)).

(** Own properties in insertion order. *)
Definition obj : Type := list (string * jsval).

(** Error objects: [name] is the constructor's, [message] the text. *)
Record JsError : Type := mkError { err_name : string; err_message : string }.

Definition SyntaxError (m : string) : JsError := mkError "SyntaxError" m.
Definition TypeError (m : string) : JsError := mkError "TypeError" m.

(** [String(err)], that is [Error.prototype.toString]. *)
Definition String_of_error (e : JsError) : string :=
  match err_name e, err_message e with
  | EmptyString, m => m
  | n, EmptyString => n
  | n, m => n +:+ ": " +:+ m
  end.

Inductive Result (A : Type) : Type :=
| Ok (a : A)
| Throw (e : JsError).
Arguments Ok {A} a.
Arguments Throw {A} e.

Definition rbind {A B} (r : Result A) (k : A -> Result B) : Result B :=
  match r with
  | Ok a => k a
  | Throw e => Throw e
  end.

(** ToBoolean *)
Definition truthy (v : jsval) : bool :=
  match v with
  | JUndefined | JNull => false
  | JBool b => b
  | JNum f => negb (PrimFloat.eqb f 0%float || PrimFloat.is_nan f)
  | JStr s => Str.nonempty s
  | JArr _ | JObj _ => true
  end.

(** [a || b] *)
Definition js_or (a b : jsval) : jsval := if truthy a then a else b.

(** [typeof v === "string"] *)
Definition is_string (v : jsval) : bool :=
  match v with JStr _ => true | _ => false end.

(** [v === "lit"] for a string literal *)
Definition is_str (v : jsval) (lit : string) : bool :=
  match v with JStr s => String.eqb s lit | _ => false end.

Definition str_of (v : jsval) : string :=
  match v with JStr s => s | _ => EmptyString end.

Fixpoint lookup_prop (k : string) (o : obj) : jsval :=
  match o with
  | [] => JUndefined
  | (k', v) :: rest => if String.eqb k' k then v else lookup_prop k rest
  end.

(** [v.k] where [v] is known not to be null or undefined, for a key [k]
    that no prototype defines: the own property of an object, and
    undefined on arrays and primitives. *)
Definition get (v : jsval) (k : string) : jsval :=
  match v with
  | JObj o => lookup_prop k o
  | _ => JUndefined
  end.

(** [v.k]: a TypeError on null and undefined. *)
Definition getProp (v : jsval) (k : string) : Result jsval :=
  match v with
  | JUndefined =>
      Throw (TypeError ("Cannot read properties of undefined (reading '" +:+ k +:+ "')"))
  | JNull =>
      Throw (TypeError ("Cannot read properties of null (reading '" +:+ k +:+ "')"))
  | _ => Ok (get v k)
  end.

(** [v?.k] *)
Definition getOpt (v : jsval) (k : string) : jsval :=
  match v with
  | JUndefined | JNull => JUndefined
  | _ => get v k
  end.

(** [o.k = x] on own properties: in place when [k] exists, else last. *)
Fixpoint set_prop (k : string) (x : jsval) (o : obj) : obj :=
  match o with
  | [] => [(k, x)]
  | (k', v) :: rest =>
      if String.eqb k' k then (k', x) :: rest else (k', v) :: set_prop k x rest
  end.

(** [{ ...a, ...b }]: the own properties of [b], undefined ones included,
    are assigned onto a copy of [a]. *)
Definition spread (a b : obj) : obj :=
  fold_left (fun acc kv => set_prop (fst kv) (snd kv) acc) b a.

Definition has_prop (k : string) (o : obj) : bool :=
  existsb (fun kv => String.eqb (fst kv) k) o.

End JS.
Export JS.

(** ** The environment and the world *)

(** A chat message sent to the chat model. *)
Record Message : Type := mkMessage { role : string; content : string }.

(** The part of a chat completion the router reads:
    [completion.choices[i].message.content], where the first choice, its
    message and the content may each be missing. *)
Record ChatMessage : Type := mkChatMessage { reply_content : option string }.
Record Choice : Type := mkChoice { message : option ChatMessage }.
Record Completion : Type := mkCompletion { choices : list Choice }.

(** Modelled from the spec: the records of [memory.js], which is absent
    from the sources.  A ConversationTurn is [{role, content, timestamp}]. *)
Record Turn : Type := mkTurn { t_role : string; t_content : string; t_timestamp : string }.

(** Modelled from the spec: a Project of [memory.js] owns its conversation,
    in insertion order, and its persisted schematics. *)
Record Project : Type := mkProject { conversation : list Turn; schematics : list jsval }.

(** The calls that leave the router, in the order they are made. *)
Inductive Call : Type :=
| CallGroq (messages : list Message)
| CallGemini (prompt : string)
| CallLoadProject (name : string)
| CallAppendConversation (name role content : string)
| CallSaveSchematic (name : string) (blueprint : jsval)
| CallSaveBlueprintFile (name : string) (blueprint : jsval).

Inductive LogArg : Type :=
| LStr (s : string)
| LErr (e : JsError).

Inductive LogLevel : Type := Warn | Error.

Record LogEntry : Type := mkLog { level : LogLevel; label : string; arg : LogArg }.

(** What the program is run against.  The prompt texts of [prompts.js] and
    the stress estimator of [tools/createSim.js] are imported by the router
    and absent from the sources: they are parameters, the estimator a pure
    function.  The models and the store answer the [t]-th call of a run
    ([t] counts every call of [Call]), so that the same request may succeed
    once and fail later; [store_fault] says which calls of the store fail
    with a read or write error, and [clock] stamps the turns. *)
Record Env : Type := mkEnv {
  (* prompts.js *)
  CREATE_MODE_PROMPT : string;
  PRO_MODE_PROMPT : string;
  GENERAL_MODE_PROMPT : string;
  AUTO_ROUTER_PROMPT : string;
  (* the runtime *)
  JSON_parse : string -> Result jsval;
  JSON_stringify : jsval -> string;           (* JSON.stringify(v, null, 2) *)
  Number_toString : float -> string;
  Object_toString : jsval -> Result string;   (* ToString of an object or array *)
  (* tools/createSim.js *)
  estimateStress : jsval -> jsval -> jsval;
  (* the two models *)
  groq_create : nat -> list Message -> Result Completion;
  gemini_text : nat -> string -> Result string;
  (* the project store and the blueprint-file sink *)
  store_fault : nat -> Call -> option JsError;
  clock : nat -> string;
  (* the file system: the error, if any, of writing a text to the profile
     file after [t] calls *)
  fs_write_fault : nat -> string -> option JsError
}.

Record World : Type := mkWorld {
  profile_file : option string;               (* data/userStyle.json *)
  projects : gmap string Project;             (* memory.js *)
  blueprint_files : list (string * jsval);    (* schematicGenerator.js *)
  trace : list Call;
  console : list LogEntry
}.

Definition tick (w : World) : nat := length (trace w).

Definition set_profile_file (f : option string) (w : World) : World :=
  mkWorld f (projects w) (blueprint_files w) (trace w) (console w).

Definition set_projects (p : gmap string Project) (w : World) : World :=
  mkWorld (profile_file w) p (blueprint_files w) (trace w) (console w).

Definition set_blueprint_files (b : list (string * jsval)) (w : World) : World :=
  mkWorld (profile_file w) (projects w) b (trace w) (console w).

Definition log_call (c : Call) (w : World) : World :=
  mkWorld (profile_file w) (projects w) (blueprint_files w) (trace w ++ [c]) (console w).

Definition log_console (e : LogEntry) (w : World) : World :=
  mkWorld (profile_file w) (projects w) (blueprint_files w) (trace w) (console w ++ [e]).

(** The conversation of project [p]; none when the project does not exist. *)
Definition conversation_of (w : World) (p : string) : list Turn :=
  match projects w !! p with
  | Some pr => conversation pr
  | None => []
  end.

(** ** The monad: state that survives an exception *)
Definition M (A : Type) : Type := World -> Result A * World.

Definition ret {A} (a : A) : M A := fun w => (Ok a, w).

Definition throw {A} (e : JsError) : M A := fun w => (Throw e, w).

Definition bind {A B} (m : M A) (k : A -> M B) : M B :=
  fun w =>
    match m w with
    | (Ok a, w') => k a w'
    | (Throw e, w') => (Throw e, w')
    end.

Definition lift {A} (r : Result A) : M A := fun w => (r, w).

Definition gets {A} (f : World -> A) : M A := fun w => (Ok (f w), w).

Definition modify (f : World -> World) : M unit := fun w => (Ok tt, f w).

(** [try { m } catch (err) { h err }] *)
Definition try_catch {A} (m : M A) (h : JsError -> M A) : M A :=
  fun w =>
    match m w with
    | (Ok a, w') => (Ok a, w')
    | (Throw e, w') => h e w'
    end.

Declare Scope js_scope.
Delimit Scope js_scope with js.
Notation "'let*' x ':=' m 'in' k" := (bind m (fun x => k))
  (at level 10, x pattern, m at level 100, k at level 200) : js_scope.
Notation "m ';;' k" := (bind m (fun _ => k))
  (at level 100, k at level 200, right associativity) : js_scope.
Open Scope js_scope.

Definition console_warn (l : string) (a : LogArg) : M unit :=
  modify (log_console (mkLog Warn l a)).

Definition console_error (l : string) (a : LogArg) : M unit :=
  modify (log_console (mkLog Error l a)).

(** An HTTP answer: [res.status(s).json(b)]; [res.json(b)] has status 200. *)
Record Response : Type := mkResponse { status : nat; body : jsval }.

Section Runtime.
Variable env : Env.

(** ToString, as a template literal applies it to [${v}]. *)
Definition ToString (v : jsval) : Result string :=
  match v with
  | JUndefined => Ok "undefined"
  | JNull => Ok "null"
  | JBool true => Ok "true"
  | JBool false => Ok "false"
  | JNum f => Ok (Number_toString env f)
  | JStr s => Ok s
  | JArr _ | JObj _ => Object_toString env v
  end.

End Runtime.

(** ** userProfile.js *)
Module UserProfile.
Section WithEnv.
Variable env : Env.

Definition PROFILE_PATH : string := "data/userStyle.json".

Definition defaultProfile : obj :=
  [ ("tone", JStr "friendly");
    ("detail", JStr "medium");
    ("emojis", JStr "some");
    ("formatting", JStr "markdown") ].

(** [fs.existsSync(PROFILE_PATH)] *)
Definition existsSync : M bool :=
  gets (fun w => match profile_file w with Some _ => true | None => false end).

(** [fs.writeFileSync(PROFILE_PATH, text)]: the write may fail (a full or
    read-only disk, a [data] directory removed after the module created it),
    and then it raises and the file is as before. *)
Definition writeFileSync (text : string) : M unit :=
  fun w =>
    match fs_write_fault env (tick w) text with
    | Some e => (Throw e, w)
    | None => (Ok tt, set_profile_file (Some text) w)
    end.

(** [fs.readFileSync(PROFILE_PATH, "utf8")] *)
Definition readFileSync : M string :=
  fun w =>
    match profile_file w with
    | Some text => (Ok text, w)
    | None =>
        (Throw (mkError "Error"
                  ("ENOENT: no such file or directory, open '" +:+ PROFILE_PATH +:+ "'")), w)
    end.

Definition saveUserProfile (style : obj) : M jsval :=
  let merged := spread defaultProfile style in
  writeFileSync (JSON_stringify env (JObj merged)) ;;
  ret (JObj merged).

Definition loadUserProfile : M jsval :=
  let* present := existsSync in
  if negb present then
    writeFileSync (JSON_stringify env (JObj defaultProfile)) ;;
    ret (JObj defaultProfile)
  else
    try_catch
      (let* text := readFileSync in lift (JSON_parse env text))
      (fun e =>
         console_error "Failed to read user profile:" (LErr e) ;;
         ret (JObj defaultProfile)).

End WithEnv.
End UserProfile.

(** ** memory.js and schematicGenerator.js *)
Module Memory.
Section WithEnv.
Variable env : Env.

(** Modelled from the spec: [memory.js] and [schematicGenerator.js] are
    imported by the router and absent from the sources.  Every call of the
    store is recorded in the trace and may fail with a store read or write
    error (a PersistenceFailure), which [store_fault] decides. *)
Definition store_op (c : Call) : M unit :=
  fun w =>
    match store_fault env (tick w) c with
    | Some e => (Throw e, log_call c w)
    | None => (Ok tt, log_call c w)
    end.

Definition project_or_new (ps : gmap string Project) (key : string) : Project :=
  match ps !! key with
  | Some pr => pr
  | None => mkProject [] []
  end.

(** Modelled from the spec: [loadProject(name) -> {conversation, ...}] of
    [memory.js]; a project is identified by its name, a string key, and one
    that was never written has no record. *)
Definition loadProject (name : jsval) : M (option Project) :=
  let* key := lift (ToString env name) in
  store_op (CallLoadProject key) ;;
  gets (fun w => projects w !! key).

(** Modelled from the spec: [appendConversation(name, role, content)] of
    [memory.js] appends one turn [{role, content, timestamp}] at the end of
    the project's conversation; the project is created on first write. *)
Definition appendConversation (name : jsval) (r c : string) : M unit :=
  let* key := lift (ToString env name) in
  let* t := gets tick in
  store_op (CallAppendConversation key r c) ;;
  modify (fun w =>
    let pr := project_or_new (projects w) key in
    set_projects
      (<[key := mkProject (conversation pr ++ [mkTurn r c (clock env t)]) (schematics pr)]>
         (projects w)) w).

(** Modelled from the spec: [saveSchematic(name, blueprint)] of [memory.js]
    adds the blueprint to the project's schematics; the project is created
    on first write. *)
Definition saveSchematic (name : jsval) (blueprint : jsval) : M unit :=
  let* key := lift (ToString env name) in
  store_op (CallSaveSchematic key blueprint) ;;
  modify (fun w =>
    let pr := project_or_new (projects w) key in
    set_projects
      (<[key := mkProject (conversation pr) (schematics pr ++ [blueprint])]> (projects w)) w).

(** Modelled from the spec: [saveBlueprintFile(name, blueprint)] of
    [schematicGenerator.js], the standalone blueprint-file sink, independent
    of the project store. *)
Definition saveBlueprintFile (name : jsval) (blueprint : jsval) : M unit :=
  let* key := lift (ToString env name) in
  store_op (CallSaveBlueprintFile key blueprint) ;;
  modify (fun w => set_blueprint_files (blueprint_files w ++ [(key, blueprint)]) w).

End WithEnv.
End Memory.

(** ** aiRouter.js *)
Module AiRouter.
Section WithEnv.
Variable env : Env.

Definition system (c : string) : Message := mkMessage "system" c.
Definition user (c : string) : Message := mkMessage "user" c.

(** [`${profile.k}`] *)
Definition field_text (profile : jsval) (k : string) : Result string :=
  rbind (getProp profile k) (ToString env).

Definition styleInstruction (profile : jsval) : Result string :=
  rbind (field_text profile "tone") (fun tone =>
  rbind (field_text profile "detail") (fun detail =>
  rbind (field_text profile "emojis") (fun emojis =>
  rbind (field_text profile "formatting") (fun formatting =>
  Ok (Str.trim (Str.lines
    [ "";
      "User style settings:";
      "- tone: " +:+ tone;
      "- detail: " +:+ detail;
      "- emojis: " +:+ emojis;
      "- formatting: " +:+ formatting;
      "";
      "Respect these settings while answering.";
      "" ])))))).

Definition basePromptForMode (mode : jsval) : string :=
  if is_str mode "create" then CREATE_MODE_PROMPT env
  else if is_str mode "pro" then PRO_MODE_PROMPT env
  else GENERAL_MODE_PROMPT env.

(** [groq.chat.completions.create({model, temperature: 0.4, messages})] *)
Definition completions_create (messages : list Message) : M Completion :=
  fun w => (groq_create env (tick w) messages, log_call (CallGroq messages) w).

(** [completion.choices[0]?.message?.content]; [None] is null or undefined. *)
Definition first_content (completion : Completion) : option string :=
  match choices completion with
  | [] => None
  | c :: _ =>
      match message c with
      | None => None
      | Some m => reply_content m
      end
  end.

(** [x ?? "(no reply)"]: only null and undefined give way to the placeholder. *)
Definition content_or_placeholder (completion : Completion) : string :=
  match first_content completion with
  | None => "(no reply)"
  | Some text => text
  end.

Definition groqChat (messages : list Message) : M string :=
  let* completion := completions_create messages in
  ret (content_or_placeholder completion).

(** The keyword heuristic that ends [autoMode] (lines 75-80). *)
Definition keywordMode (message : string) : string :=
  let lower := Str.toLowerCase message in
  if Str.includes lower "create " || Str.includes lower "factory" || Str.includes lower "kinetic"
  then "create"
  else if Str.includes lower "forge" || Str.includes lower "fabric" || Str.includes lower "gradle"
  then "pro"
  else "general".

(** [autoMode]: [Some mode] stands for the [return] inside the [try]. *)
Definition autoMode (message : string) : M jsval :=
  let* early :=
    try_catch
      (let* raw := groqChat [system (AUTO_ROUTER_PROMPT env); user message] in
       let* parsed := lift (JSON_parse env raw) in
       let* mode := lift (getProp parsed "mode") in
       if is_str mode "create" || is_str mode "pro" || is_str mode "general"
       then ret (Some mode)
       else ret None)
      (fun err =>
         console_warn "Auto router failed; falling back:"
           (if Str.nonempty (err_message err) then LStr (err_message err) else LErr err) ;;
         ret None) in
  match early with
  | Some mode => ret mode
  | None => ret (JStr (keywordMode message))
  end.

(** [mode === "auto" ? await autoMode(message) : mode] (line 92) *)
Definition chosenMode (message : string) (mode : jsval) : M jsval :=
  if is_str mode "auto" then autoMode message else ret mode.

(** [last.slice(-n)] on an array *)
Definition slice_last {A} (n : nat) (l : list A) : list A :=
  skipn (length l - n) l.

(** [`[${m.role}] ${m.content.slice(0, 200)}`] *)
Definition turn_line (m : Turn) : string :=
  "[" +:+ t_role m +:+ "] " +:+ Str.slice0 200 (t_content m).

(** The history block of a non-empty conversation (lines 100-105). *)
Definition historyBlock (conv : list Turn) : string :=
  "Recent project messages:" +:+ Str.nl +:+
  Str.join Str.nl (map turn_line (slice_last 4 conv)).

(** The value of [historyText] after lines 96-107. *)
Definition historyText (projectName : jsval) : M string :=
  if truthy projectName then
    let* project := Memory.loadProject env projectName in
    match project with
    | Some pr =>
        match conversation pr with
        | [] => ret ""
        | _ :: _ => ret (historyBlock (conversation pr))
        end
    | None => ret ""
    end
  else ret "".

(** [[modePrompt, styleText, historyText].filter(Boolean).join("\n\n")] *)
Definition systemContent (modePrompt styleText history : string) : string :=
  Str.join (Str.nl +:+ Str.nl) (List.filter Str.nonempty [modePrompt; styleText; history]).

(** [const { k } = req.body || {}] *)
Definition body_field (req_body : jsval) (k : string) : jsval :=
  get (js_or req_body (JObj [])) k.

(** [const { mode = "auto" } = ...]: the default replaces undefined only. *)
Definition or_default (v d : jsval) : jsval :=
  match v with JUndefined => d | _ => v end.

(** The steps of the chat route before the chat request (lines 91-109):
    the resolved mode and the two messages to send. *)
Definition chatMessages (message : string) (mode projectName : jsval)
  : M (jsval * list Message) :=
  let* profile := UserProfile.loadUserProfile env in
  let* chosen := chosenMode message mode in
  let modePrompt := basePromptForMode chosen in
  let* styleText := lift (styleInstruction profile) in
  let* history := historyText projectName in
  ret (chosen, [system (systemContent modePrompt styleText history); user message]).

(** POST /api/ai/chat *)
Definition post_chat (req_body : jsval) : M Response :=
  try_catch
    (let message := body_field req_body "message" in
     let mode := or_default (body_field req_body "mode") (JStr "auto") in
     let projectName := body_field req_body "projectName" in
     if negb (truthy message) || negb (is_string message) then
       ret (mkResponse 400
              (JObj [("ok", JBool false); ("error", JStr "Missing 'message' string")]))
     else
       let message := str_of message in
       let* profile := UserProfile.loadUserProfile env in
       let* chosen := chosenMode message mode in
       let modePrompt := basePromptForMode chosen in
       let* styleText := lift (styleInstruction profile) in
       let* history := historyText projectName in
       let* reply := groqChat [system (systemContent modePrompt styleText history);
                               user message] in
       (if truthy projectName then
          Memory.appendConversation env projectName "user" message ;;
          Memory.appendConversation env projectName "assistant" reply
        else ret tt) ;;
       ret (mkResponse 200
              (JObj [("ok", JBool true); ("mode", chosen); ("reply", JStr reply)])))
    (fun err =>
       console_error "AI chat error:" (LErr err) ;;
       ret (mkResponse 500
              (JObj [("ok", JBool false); ("error", JStr "AI error");
                     ("details", JStr (String_of_error err))]))).

(** GET /api/ai/style *)
Definition get_style : M Response :=
  try_catch
    (let* profile := UserProfile.loadUserProfile env in
     ret (mkResponse 200 (JObj [("ok", JBool true); ("profile", profile)])))
    (fun err =>
       console_error "Load style error:" (LErr err) ;;
       ret (mkResponse 500
              (JObj [("ok", JBool false); ("error", JStr "Failed to load style")]))).

(** POST /api/ai/style *)
Definition post_style (req_body : jsval) : M Response :=
  try_catch
    (let tone := body_field req_body "tone" in
     let detail := body_field req_body "detail" in
     let emojis := body_field req_body "emojis" in
     let formatting := body_field req_body "formatting" in
     let* updated :=
       UserProfile.saveUserProfile env
         [("tone", tone); ("detail", detail); ("emojis", emojis); ("formatting", formatting)] in
     ret (mkResponse 200 (JObj [("ok", JBool true); ("profile", updated)])))
    (fun err =>
       console_error "Save style error:" (LErr err) ;;
       ret (mkResponse 500
              (JObj [("ok", JBool false); ("error", JStr "Failed to save style")]))).

(** The prompt of the schematic route (lines 159-180). *)
Definition schematicPrompt (instructions : string) : string :=
  Str.trim (Str.lines
    [ "";
      "User wants a Create/Minecraft contraption. Convert into STRICT JSON:";
      "";
      "{";
      "  " +:+ Str.quoted "name" +:+ ": " +:+ Str.quoted "short_name" +:+ ",";
      "  " +:+ Str.quoted "description" +:+ ": " +:+ Str.quoted "what it does" +:+ ",";
      "  " +:+ Str.quoted "materials" +:+ ": [" +:+ Str.quoted "key blocks/items" +:+ "],";
      "  " +:+ Str.quoted "size" +:+ ": " +:+ Str.quoted "WxHxL in blocks" +:+ ",";
      "  " +:+ Str.quoted "steps" +:+ ": [";
      "    " +:+ Str.quoted "Step 1 ..." +:+ ",";
      "    " +:+ Str.quoted "Step 2 ...";
      "  ],";
      "  " +:+ Str.quoted "stress" +:+ ": {";
      "    " +:+ Str.quoted "machines" +:+ ": 4,";
      "    " +:+ Str.quoted "baseStress" +:+ ": 256";
      "  }";
      "}";
      "";
      "No markdown, ONLY JSON.";
      "";
      "User instructions: " +:+ instructions;
      "" ]).

(** [model.generateContent(prompt)] and [result.response.text()] *)
Definition generateContent_text (prompt : string) : M string :=
  fun w => (gemini_text env (tick w) prompt, log_call (CallGemini prompt) w).

(** The blueprint after the inner [try]/[catch] (lines 186-191). *)
Definition parsedBlueprint (text : string) : jsval :=
  match JSON_parse env text with
  | Ok v => v
  | Throw err => JObj [("parseError", JStr (String_of_error err)); ("raw", JStr text)]
  end.

(** [v.k = x]; only objects reach the one assignment of the program. *)
Definition assign (v : jsval) (k : string) (x : jsval) : jsval :=
  match v with
  | JObj o => JObj (set_prop k x o)
  | _ => v
  end.

(** The blueprint after the enrichment (lines 193-198). *)
Definition withStressEstimate (blueprint : jsval) : jsval :=
  if truthy (getOpt (getOpt blueprint "stress") "machines") then
    assign blueprint "stressEstimate"
      (estimateStress env
         (get (get blueprint "stress") "machines")
         (js_or (get (get blueprint "stress") "baseStress") (JNum 256%float)))
  else blueprint.

(** POST /api/ai/schematic *)
Definition post_schematic (req_body : jsval) : M Response :=
  try_catch
    (let instructions := body_field req_body "instructions" in
     let projectName := body_field req_body "projectName" in
     if negb (truthy instructions) || negb (is_string instructions) then
       ret (mkResponse 400
              (JObj [("ok", JBool false); ("error", JStr "Missing 'instructions' string")]))
     else
       let prompt := schematicPrompt (str_of instructions) in
       let* text := generateContent_text prompt in
       let blueprint := withStressEstimate (parsedBlueprint text) in
       (if truthy projectName then
          Memory.saveSchematic env projectName blueprint ;;
          Memory.saveBlueprintFile env projectName blueprint
        else ret tt) ;;
       ret (mkResponse 200 (JObj [("ok", JBool true); ("schematic", blueprint)])))
    (fun err =>
       console_error "Schematic error:" (LErr err) ;;
       ret (mkResponse 500
              (JObj [("ok", JBool false); ("error", JStr "Schematic AI error");
                     ("details", JStr (String_of_error err))]))).

End WithEnv.
End AiRouter.

(** ** Sample runs

    One concrete environment for the examples: recorded model answers, a
    store whose failures are chosen per run, and a JSON codec that agrees
    with the runtime's on the texts and values of these runs. *)
Module Sample.

Definition world0 : World := mkWorld None ∅ [] [] [].

Definition network_error : JsError := mkError "Error" "Connection error.".
Definition disk_error : JsError := mkError "Error" "EACCES: permission denied".

(** Whole numbers print in decimal; the runs use no other number. *)
Definition Number_toString (f : float) : string :=
  match Prim2SF f with
  | S754_zero _ => "0"
  | S754_infinity s => if s then "-Infinity" else "Infinity"
  | S754_nan => "NaN"
  | S754_finite s m e =>
      let z := (if Z.leb 0 e then Z.pos m * 2 ^ e else Z.pos m / 2 ^ (- e))%Z in
      (if s then "-" else "") +:+ NilZero.string_of_uint (N.to_uint (Z.to_N z))
  end.

Definition escape_unit (c : ascii) : string :=
  if Ascii.eqb c "034" then "\" +:+ Str.dq
  else if Ascii.eqb c "\" then "\\"
  else if Ascii.eqb c "010" then "\n"
  else String c EmptyString.

Fixpoint escape (s : string) : string :=
  match s with
  | EmptyString => EmptyString
  | String c rest => escape_unit c +:+ escape rest
  end.

Definition block (open close indent : string) (parts : list string) : string :=
  match parts with
  | [] => open +:+ close
  | _ =>
      let inner := indent +:+ "  " in
      open +:+ Str.nl +:+ inner +:+ Str.join ("," +:+ Str.nl +:+ inner) parts
      +:+ Str.nl +:+ indent +:+ close
  end.

(** [JSON.stringify(v, null, 2)] below the indentation [indent]; [None] is
    the undefined that the codec leaves out of an object. *)
Fixpoint stringify_at (indent : string) (v : jsval) {struct v} : option string :=
  match v with
  | JUndefined => None
  | JNull => Some "null"
  | JBool b => Some (if b then "true" else "false")
  | JNum f => Some (if PrimFloat.is_nan f || PrimFloat.is_infinity f then "null"
                    else Number_toString f)
  | JStr s => Some (Str.quoted (escape s))
  | JArr items =>
      let fix elems (l : list jsval) : list string :=
        match l with
        | [] => []
        | x :: rest =>
            match stringify_at (indent +:+ "  ") x with
            | Some t => t
            | None => "null"
            end :: elems rest
        end in
      Some (block "[" "]" indent (elems items))
  | JObj props =>
      let fix members (l : list (string * jsval)) : list string :=
        match l with
        | [] => []
        | (k, x) :: rest =>
            match stringify_at (indent +:+ "  ") x with
            | Some t => (Str.quoted (escape k) +:+ ": " +:+ t) :: members rest
            | None => members rest
            end
        end in
      Some (block "{" "}" indent (members props))
  end.

Definition JSON_stringify (v : jsval) : string :=
  match stringify_at "" v with
  | Some t => t
  | None => ""
  end.

(** A blueprint as the blueprint model is asked to write it. *)
Definition blueprint_text : string :=
  "{" +:+ Str.quoted "name" +:+ ":" +:+ Str.quoted "mill" +:+ ","
  +:+ Str.quoted "stress" +:+ ":{" +:+ Str.quoted "machines" +:+ ":4,"
  +:+ Str.quoted "baseStress" +:+ ":256}}".

Definition blueprint_value : jsval :=
  JObj [ ("name", JStr "mill");
         ("stress", JObj [("machines", JNum 4%float); ("baseStress", JNum 256%float)]) ].

(** An answer of the router model. *)
Definition mode_text : string := "{" +:+ Str.quoted "mode" +:+ ":" +:+ Str.quoted "pro" +:+ "}".

(** [JSON.parse] on the texts of the runs: the two recorded documents parse,
    prose and a truncated document are not JSON. *)
Definition JSON_parse (text : string) : Result jsval :=
  if String.eqb text blueprint_text then Ok blueprint_value
  else if String.eqb text mode_text then Ok (JObj [("mode", JStr "pro")])
  else Throw (SyntaxError "Unexpected token").

(** A stress estimate for the runs: machines times base stress. *)
Definition estimateStress (machines baseStress : jsval) : jsval :=
  match machines, baseStress with
  | JNum m, JNum b => JNum (m * b)%float
  | _, _ => JNum nan
  end.

Definition env_with
  (groq : nat -> list Message -> Result Completion)
  (gemini : nat -> string -> Result string)
  (fault : nat -> Call -> option JsError) : Env :=
  mkEnv "You are a Create mod engineer."
        "You are a mod developer."
        "You are a helpful assistant."
        "Classify the message. Answer with JSON."
        JSON_parse JSON_stringify Number_toString (fun _ => Ok "[object Object]")
        estimateStress
        groq gemini fault (fun _ => "2024-01-01T00:00:00.000Z")
        (fun _ _ => None).

(** Models that are unreachable. *)
Definition groq_down (t : nat) (messages : list Message) : Result Completion :=
  Throw network_error.

Definition gemini_down (t : nat) (prompt : string) : Result string :=
  Throw network_error.

(** A chat model with one fixed completion. *)
Definition completion_of (text : option string) : Completion :=
  mkCompletion [mkChoice (Some (mkChatMessage text))].

Definition groq_says (text : option string) (t : nat) (messages : list Message)
  : Result Completion :=
  Ok (completion_of text).

(** A chat model whose first call fails and whose later calls answer. *)
Definition groq_recovers (text : string) (t : nat) (messages : list Message)
  : Result Completion :=
  match t with
  | 0 => Throw network_error
  | S _ => Ok (completion_of (Some text))
  end.

(** A blueprint model with one fixed answer. *)
Definition gemini_says (text : string) (t : nat) (prompt : string) : Result string :=
  Ok text.

(** Store failures. *)
Definition no_fault (t : nat) (c : Call) : option JsError := None.

Definition fault_on_schematic (t : nat) (c : Call) : option JsError :=
  match c with
  | CallSaveSchematic _ _ => Some disk_error
  | _ => None
  end.

Definition fault_on_assistant_turn (t : nat) (c : Call) : option JsError :=
  match c with
  | CallAppendConversation _ "assistant" _ => Some disk_error
  | _ => None
  end.

Definition env_down : Env := env_with groq_down gemini_down no_fault.

(** A project with five turns of history. *)
Definition turn (r c : string) : Turn := mkTurn r c "2024-01-01T00:00:00.000Z".

Definition long_history : list Turn :=
  [ turn "user" "one"; turn "assistant" "two"; turn "user" "three";
    turn "assistant" "four"; turn "user" "five" ].

Definition world_with_history : World :=
  set_projects {[ "p1" := mkProject long_history [] ]} world0.

(** Chat requests: one for project p1, one without a project. *)
Definition chat_request : jsval :=
  JObj [ ("message", JStr "how do I power it?"); ("mode", JStr "general");
         ("projectName", JStr "p1") ].

Definition factory_request : jsval :=
  JObj [ ("message", JStr "build a factory"); ("mode", JStr "auto");
         ("projectName", JNull) ].

Definition plain_request : jsval :=
  JObj [ ("message", JStr "hi"); ("mode", JStr "general") ].

(** Schematic requests: one for project p1, one without a project. *)
Definition schematic_request : jsval :=
  JObj [ ("instructions", JStr "a windmill"); ("projectName", JStr "p1") ].

Definition plain_schematic_request : jsval :=
  JObj [ ("instructions", JStr "a windmill") ].

Definition prose : string := "Sorry, I can only describe it in words.".

(** Style updates: a full one, then one with a new tone and a field the
    profile does not know. *)
Definition full_style : jsval :=
  JObj [ ("tone", JStr "formal"); ("detail", JStr "high");
         ("emojis", JStr "none"); ("formatting", JStr "plain") ].

Definition partial_style : jsval :=
  JObj [ ("tone", JStr "blunt"); ("nickname", JStr "Dax") ].

End Sample.

(** ** Vocabulary of the statements *)

(** One of [terms] occurs in [lower]. *)
Definition has_term (lower : string) (terms : list string) : Prop :=
  exists t, In t terms /\ exists before after, lower = before +:+ t +:+ after.

(** [parsed.mode] is one of the three modes (line 69). *)
Definition known_mode (v : jsval) : bool :=
  is_str v "create" || is_str v "pro" || is_str v "general".

(** The warning of line 73. *)
Definition warned (e : JsError) : LogEntry :=
  mkLog Warn "Auto router failed; falling back:"
    (if Str.nonempty (err_message e) then LStr (err_message e) else LErr e).

(** Calls that write nothing: the two models and the read of a project. *)
Definition reads_only (c : Call) : Prop :=
  match c with
  | CallGroq _ | CallGemini _ | CallLoadProject _ => True
  | _ => False
  end.

(** [w1] comes from [w] by calls that write nothing to the stores. *)
Definition only_read (w w1 : World) : Prop :=
  projects w1 = projects w /\
  blueprint_files w1 = blueprint_files w /\
  exists calls, trace w1 = (trace w ++ calls)%list /\ Forall reads_only calls.

(** The mode of a chat request: [mode = "auto"] when the body has none. *)
Definition or_default_mode (req_body : jsval) : jsval :=
  AiRouter.or_default (AiRouter.body_field req_body "mode") (JStr "auto").

(** The world after the [catch] of the chat route logged [e]. *)
Definition chat_error_logged (e : JsError) (w : World) : World :=
  log_console (mkLog Error "AI chat error:" (LErr e)) w.

(** The world after the [catch] of the schematic route logged [e]. *)
Definition schematic_error_logged (e : JsError) (w : World) : World :=
  log_console (mkLog Error "Schematic error:" (LErr e)) w.

(** The answers of the chat route. *)
Definition chat_ok (chosen : jsval) (reply : string) : Response :=
  mkResponse 200 (JObj [("ok", JBool true); ("mode", chosen); ("reply", JStr reply)]).

Definition chat_failed (err : JsError) : Response :=
  mkResponse 500
    (JObj [("ok", JBool false); ("error", JStr "AI error");
           ("details", JStr (String_of_error err))]).

(** The answers of the schematic route. *)
Definition schematic_ok (blueprint : jsval) : Response :=
  mkResponse 200 (JObj [("ok", JBool true); ("schematic", blueprint)]).

Definition schematic_failed (err : JsError) : Response :=
  mkResponse 500
    (JObj [("ok", JBool false); ("error", JStr "Schematic AI error");
           ("details", JStr (String_of_error err))]).

(** The degraded blueprint of a parse error. *)
Definition degraded (err : JsError) (text : string) : jsval :=
  JObj [("parseError", JStr (String_of_error err)); ("raw", JStr text)].

(** The world after one successful append to project [p]. *)
Definition with_turn (p : string) (turn : Turn) (w : World) : World :=
  let pr := Memory.project_or_new (projects w) p in
  set_projects (<[p := mkProject (conversation pr ++ [turn]) (schematics pr)]> (projects w)) w.

(** The world after the store took a schematic of project [p]. *)
Definition with_schematic (p : string) (blueprint : jsval) (w : World) : World :=
  let pr := Memory.project_or_new (projects w) p in
  set_projects
    (<[p := mkProject (conversation pr) (schematics pr ++ [blueprint])]> (projects w)) w.

(** The world after the file sink took a blueprint. *)
Definition with_blueprint_file (p : string) (blueprint : jsval) (w : World) : World :=
  set_blueprint_files (blueprint_files w ++ [(p, blueprint)]) w.

(** ** Vocabulary of the further statements *)

(** The run from [w] to [w'] made only calls that satisfy [P]. *)
Definition adds_calls (P : Call -> Prop) (w w' : World) : Prop :=
  exists calls, trace w' = (trace w ++ calls)%list /\ Forall P calls.

Definition is_groq_call (c : Call) : Prop :=
  match c with CallGroq _ => True | _ => False end.

Definition is_schematic_call (c : Call) : Prop :=
  match c with
  | CallGemini _ | CallSaveSchematic _ _ | CallSaveBlueprintFile _ _ => True
  | _ => False
  end.

(** The style block for four field texts. *)
Definition style_block (tone detail emojis formatting : string) : string :=
  Str.lines
    [ "User style settings:";
      "- tone: " +:+ tone;
      "- detail: " +:+ detail;
      "- emojis: " +:+ emojis;
      "- formatting: " +:+ formatting;
      "";
      "Respect these settings while answering." ].

(** The run from [w] to [w'] called the chat model and nothing else, and
    left the stores as they were. *)
Definition groq_only (w w' : World) : Prop :=
  projects w' = projects w /\
  blueprint_files w' = blueprint_files w /\
  adds_calls is_groq_call w w'.

(** The schematics of project [p]; none when the project does not exist. *)
Definition schematics_of (w : World) (p : string) : list jsval :=
  match projects w !! p with
  | Some pr => schematics pr
  | None => []
  end.

(** The request has a message the chat route accepts. *)
Definition valid_message (req_body : jsval) : Prop :=
  exists s, AiRouter.body_field req_body "message" = JStr s /\ s <> "".

(** The request has instructions the schematic route accepts. *)
Definition valid_instructions (req_body : jsval) : Prop :=
  exists s, AiRouter.body_field req_body "instructions" = JStr s /\ s <> "".

(** The messages of the classification request. *)
Definition router_messages (env : Env) (message : string) : list Message :=
  [AiRouter.system (AUTO_ROUTER_PROMPT env); AiRouter.user message].

(** The world after the [catch] of [loadUserProfile] logged [e]. *)
Definition profile_error_logged (e : JsError) (w : World) : World :=
  log_console (mkLog Error "Failed to read user profile:" (LErr e)) w.

(** The same environment on a disk that refuses every write of the profile
    file. *)
Definition on_full_disk (env : Env) : Env :=
  mkEnv (CREATE_MODE_PROMPT env) (PRO_MODE_PROMPT env) (GENERAL_MODE_PROMPT env)
        (AUTO_ROUTER_PROMPT env)
        (JSON_parse env) (JSON_stringify env) (Number_toString env)
        (Object_toString env) (estimateStress env)
        (groq_create env) (gemini_text env) (store_fault env) (clock env)
        (fun _ _ => Some (mkError "Error" "ENOSPC: no space left on device")).

(** Further sample runs: a codec that also reads the saved defaults and the
    document null. *)
Module MoreSamples.

Definition profile_text : string := Sample.JSON_stringify (JObj UserProfile.defaultProfile).

Definition JSON_parse (text : string) : Result jsval :=
  if String.eqb text "null" then Ok JNull
  else if String.eqb text profile_text then Ok (JObj UserProfile.defaultProfile)
  else Sample.JSON_parse text.

Definition env_with
  (groq : nat -> list Message -> Result Completion)
  (gemini : nat -> string -> Result string)
  (fault : nat -> Call -> option JsError) : Env :=
  mkEnv "You are a Create mod engineer."
        "You are a mod developer."
        "You are a helpful assistant."
        "Classify the message. Answer with JSON."
        JSON_parse Sample.JSON_stringify Sample.Number_toString
        (fun _ => Ok "[object Object]")
        Sample.estimateStress
        groq gemini fault (fun _ => "2024-01-01T00:00:00.000Z")
        (fun _ _ => None).

Definition env_down : Env := env_with Sample.groq_down Sample.gemini_down Sample.no_fault.

(** A profile file that holds the document null. *)
Definition world_null_profile : World := set_profile_file (Some "null") Sample.world0.

(** A chat model that answers the router with the mode pro. *)
Definition groq_router (t : nat) (messages : list Message) : Result Completion :=
  Ok (Sample.completion_of (Some Sample.mode_text)).

(** A store whose file sink fails. *)
Definition fault_on_blueprint_file (t : nat) (c : Call) : option JsError :=
  match c with
  | CallSaveBlueprintFile _ _ => Some Sample.disk_error
  | _ => None
  end.

(** A store that cannot read a project. *)
Definition fault_on_load (t : nat) (c : Call) : option JsError :=
  match c with
  | CallLoadProject _ => Some Sample.disk_error
  | _ => None
  end.

(** A chat request with a mode the router does not know. *)
Definition odd_mode_request : jsval :=
  JObj [ ("message", JStr "hi"); ("mode", JStr "Create") ].

End MoreSamples.

(** [s] is not empty and does not end in white space. *)
Definition ends_well (s : string) : Prop := Str.trimEnd s = s /\ s <> "".

(** [s] is not empty and does not start with white space. *)
Definition starts_well (s : string) : Prop := Str.trimStart s = s /\ s <> "".

(** Calls of the project store and of the file sink. *)
Definition is_store_call (c : Call) : Prop :=
  match c with
  | CallGroq _ | CallGemini _ => False
  | _ => True
  end.


(** The text of the default profile, as [loadUserProfile] writes it. *)
Definition defaults_text (env : Env) : string :=
  JSON_stringify env (JObj UserProfile.defaultProfile).

(** The answer and the world of POST /style when the save raised [e]. *)
Definition style_failed : Response :=
  mkResponse 500 (JObj [("ok", JBool false); ("error", JStr "Failed to save style")]).

Definition style_error_logged (e : JsError) (w : World) : World :=
  log_console (mkLog Error "Save style error:" (LErr e)) w.

(** Two code units that are equal or the two cases of one letter A-Z. *)
Definition same_letter (c d : ascii) : Prop :=
  c = d \/
  (65 <= nat_of_ascii c <= 90 /\ nat_of_ascii d = nat_of_ascii c + 32) \/
  (65 <= nat_of_ascii d <= 90 /\ nat_of_ascii c = nat_of_ascii d + 32).

(** Two messages that differ in the case of their letters A-Z only. *)
Inductive same_up_to_case : string -> string -> Prop :=
| same_empty : same_up_to_case "" ""
| same_unit c d a b :
    same_letter c d -> same_up_to_case a b ->
    same_up_to_case (String c a) (String d b).

(** * Properties *)

(** [case_run H]: by cases on the run that the right-hand side of [H]
    examines (it ended normally, or it raised [e]). *)
Ltac case_run H :=
  match type of H with
  | _ = match ?run with _ => _ end =>
      let e := fresh "e" in
      let w := fresh "w" in
      destruct run as [[[] | e] w]
  end.

(** ** Mode classification *)

Lemma chosenMode_not_auto env message mode w :
  is_str mode "auto" = false ->
  AiRouter.chosenMode env message mode w = (Ok mode, w).
Proof.
  intros Hmode. unfold AiRouter.chosenMode. now rewrite Hmode.
Qed.

(** C9: for every mode among create, pro and general and every message, the
    classification of line 92 returns that mode unchanged and leaves the
    world as it was: no call is made, no model is asked, the message is not
    looked at. *)
Theorem classify_explicit_mode env (mode message : string) (w : World) :
  In mode ["create"; "pro"; "general"] ->
  AiRouter.chosenMode env message (JStr mode) w = (Ok (JStr mode), w).
Proof.
  intros Hin. apply chosenMode_not_auto.
  simpl in Hin. destruct Hin as [<- | [<- | [<- | []]]]; reflexivity.
Qed.

Lemma classify_explicit_mode_witness :
  In "pro" ["create"; "pro"; "general"] /\
  AiRouter.chosenMode Sample.env_down "build a factory" (JStr "pro") Sample.world0
  = (Ok (JStr "pro"), Sample.world0).
Proof.
  assert (Hin : In "pro" ["create"; "pro"; "general"]) by (simpl; tauto).
  split; [exact Hin | apply classify_explicit_mode, Hin].
Defined.
Example sample_default_file :
  Sample.JSON_stringify (JObj UserProfile.defaultProfile) =
  Str.lines
    [ "{";
      "  " +:+ Str.quoted "tone" +:+ ": " +:+ Str.quoted "friendly" +:+ ",";
      "  " +:+ Str.quoted "detail" +:+ ": " +:+ Str.quoted "medium" +:+ ",";
      "  " +:+ Str.quoted "emojis" +:+ ": " +:+ Str.quoted "some" +:+ ",";
      "  " +:+ Str.quoted "formatting" +:+ ": " +:+ Str.quoted "markdown";
      "}" ].
Proof. vm_compute. reflexivity. Qed.

Example sample_number_text :
  Sample.JSON_stringify (JArr [JNum 256%float; JNum 4%float; JNum 0%float]) =
  Str.lines ["["; "  256,"; "  4,"; "  0"; "]"].
Proof. vm_compute. reflexivity. Qed.

(** ** The style profile store *)

Lemma loadUserProfile_absent env w :
  profile_file w = None ->
  UserProfile.loadUserProfile env w =
    match fs_write_fault env (tick w) (JSON_stringify env (JObj UserProfile.defaultProfile)) with
    | Some e => (Throw e, w)
    | None =>
        (Ok (JObj UserProfile.defaultProfile),
         set_profile_file (Some (JSON_stringify env (JObj UserProfile.defaultProfile))) w)
    end.
Proof.
  intros Hnone.
  unfold UserProfile.loadUserProfile, UserProfile.existsSync, bind, gets,
    UserProfile.writeFileSync.
  rewrite Hnone. cbn.
  destruct (fs_write_fault env (tick w) _); reflexivity.
Qed.

Lemma loadUserProfile_present env w text :
  profile_file w = Some text ->
  UserProfile.loadUserProfile env w =
    match JSON_parse env text with
    | Ok v => (Ok v, w)
    | Throw e =>
        (Ok (JObj UserProfile.defaultProfile),
         log_console (mkLog Error "Failed to read user profile:" (LErr e)) w)
    end.
Proof.
  intros Hsome.
  unfold UserProfile.loadUserProfile, UserProfile.existsSync, bind, gets.
  rewrite Hsome. cbn.
  unfold try_catch, bind, UserProfile.readFileSync, lift. rewrite Hsome.
  destruct (JSON_parse env text); reflexivity.
Qed.

(** Reading the profile changes neither the project store nor the trace. *)
Lemma loadUserProfile_frame env w r w' :
  UserProfile.loadUserProfile env w = (r, w') ->
  projects w' = projects w /\ trace w' = trace w /\
  blueprint_files w' = blueprint_files w.
Proof.
  destruct (profile_file w) as [text|] eqn:Hfile.
  - rewrite (loadUserProfile_present env w text Hfile).
    destruct (JSON_parse env text); intros [= <- <-]; auto.
  - rewrite (loadUserProfile_absent env w Hfile).
    destruct (fs_write_fault env (tick w) _); intros [= <- <-]; auto.
Qed.

(** C10, as the code has it: [loadUserProfile] raises nothing when the
    profile file exists: whatever it holds it returns a value and leaves
    the file as it is, and on a text that is not valid JSON that value is
    the default profile (tone friendly, detail medium, emojis some,
    formatting markdown).  When the file is absent it writes the serialised
    defaults and returns them; that write is outside the [try], and when it
    fails its error goes to the caller and no file is left. *)
Theorem loadUserProfile_defaults env (w : World) :
  let defaults :=
    JObj [ ("tone", JStr "friendly"); ("detail", JStr "medium");
           ("emojis", JStr "some"); ("formatting", JStr "markdown") ] in
  (forall text,
     profile_file w = Some text ->
     exists v w',
       UserProfile.loadUserProfile env w = (Ok v, w') /\ profile_file w' = Some text) /\
  (forall text e,
     profile_file w = Some text ->
     JSON_parse env text = Throw e ->
     exists w',
       UserProfile.loadUserProfile env w = (Ok defaults, w') /\
       profile_file w' = Some text) /\
  (profile_file w = None ->
   fs_write_fault env (tick w) (JSON_stringify env defaults) = None ->
   exists w',
     UserProfile.loadUserProfile env w = (Ok defaults, w') /\
     profile_file w' = Some (JSON_stringify env defaults)) /\
  (profile_file w = None ->
   forall e,
     fs_write_fault env (tick w) (JSON_stringify env defaults) = Some e ->
     UserProfile.loadUserProfile env w = (Throw e, w)).
Proof.
  intros defaults. split; [| split; [| split]].
  - intros text Hfile. rewrite (loadUserProfile_present env w text Hfile).
    destruct (JSON_parse env text); eauto.
  - intros text e Hfile Hparse.
    rewrite (loadUserProfile_present env w text Hfile), Hparse.
    eexists. split; [reflexivity | exact Hfile].
  - intros Hfile Hok. rewrite (loadUserProfile_absent env w Hfile).
    change (JObj UserProfile.defaultProfile) with defaults. rewrite Hok.
    eexists. split; reflexivity.
  - intros Hfile e Hfault. rewrite (loadUserProfile_absent env w Hfile).
    change (JObj UserProfile.defaultProfile) with defaults. now rewrite Hfault.
Qed.

Lemma loadUserProfile_defaults_witness :
  let corrupt := set_profile_file (Some "{ tone: friendly") Sample.world0 in
  (exists w',
     UserProfile.loadUserProfile Sample.env_down corrupt =
       (Ok (JObj UserProfile.defaultProfile), w') /\
     profile_file w' = Some "{ tone: friendly") /\
  (exists w',
     UserProfile.loadUserProfile Sample.env_down Sample.world0 =
       (Ok (JObj UserProfile.defaultProfile), w') /\
     profile_file w' = Some (Sample.JSON_stringify (JObj UserProfile.defaultProfile))) /\
  UserProfile.loadUserProfile (on_full_disk Sample.env_down) Sample.world0 =
    (Throw (mkError "Error" "ENOSPC: no space left on device"), Sample.world0).
Proof.
  intros corrupt. split; [| split].
  - destruct (loadUserProfile_defaults Sample.env_down corrupt) as (_ & Hbad & _).
    apply (Hbad "{ tone: friendly" (SyntaxError "Unexpected token")); reflexivity.
  - destruct (loadUserProfile_defaults Sample.env_down Sample.world0) as (_ & _ & Hnew & _).
    apply Hnew; reflexivity.
  - destruct (loadUserProfile_defaults (on_full_disk Sample.env_down) Sample.world0)
      as (_ & _ & _ & Hfail).
    apply Hfail; reflexivity.
Defined.

(** C10 as stated fails: on a disk that refuses the write, the first load
    with no profile file raises instead of returning the defaults, no file
    is written, and GET /style answers with its error. *)
Lemma loadUserProfile_total_counterexample :
  let env := on_full_disk Sample.env_down in
  profile_file Sample.world0 = None /\
  UserProfile.loadUserProfile env Sample.world0 =
    (Throw (mkError "Error" "ENOSPC: no space left on device"), Sample.world0) /\
  (forall v w', UserProfile.loadUserProfile env Sample.world0 <> (Ok v, w')) /\
  fst (AiRouter.get_style env Sample.world0) =
    Ok (mkResponse 500 (JObj [("ok", JBool false); ("error", JStr "Failed to load style")])).
Proof.
  intros env. split; [reflexivity |].
  assert (Hrun : UserProfile.loadUserProfile env Sample.world0 =
            (Throw (mkError "Error" "ENOSPC: no space left on device"), Sample.world0))
    by reflexivity.
  split; [exact Hrun |]. split; [| reflexivity].
  intros v w'. rewrite Hrun. discriminate.
Qed.

Lemma not_string_rejected (v : jsval) :
  (forall s, v <> JStr s) -> negb (truthy v) || negb (is_string v) = true.
Proof.
  intros Hv. destruct v; cbn; try reflexivity; try apply orb_true_r.
  now destruct (Hv s).
Qed.

Lemma post_style_run env req_body w :
  let fields :=
    [ ("tone", AiRouter.body_field req_body "tone");
      ("detail", AiRouter.body_field req_body "detail");
      ("emojis", AiRouter.body_field req_body "emojis");
      ("formatting", AiRouter.body_field req_body "formatting") ] in
  AiRouter.post_style env req_body w =
    match fs_write_fault env (tick w) (JSON_stringify env (JObj fields)) with
    | None =>
        (Ok (mkResponse 200 (JObj [("ok", JBool true); ("profile", JObj fields)])),
         set_profile_file (Some (JSON_stringify env (JObj fields))) w)
    | Some e => (Ok style_failed, style_error_logged e w)
    end.
Proof.
  intros fields.
  unfold AiRouter.post_style, try_catch, bind, UserProfile.saveUserProfile, bind,
    UserProfile.writeFileSync.
  change (spread UserProfile.defaultProfile
            [("tone", AiRouter.body_field req_body "tone");
             ("detail", AiRouter.body_field req_body "detail");
             ("emojis", AiRouter.body_field req_body "emojis");
             ("formatting", AiRouter.body_field req_body "formatting")]) with fields.
  destruct (fs_write_fault env (tick w) (JSON_stringify env (JObj fields))); reflexivity.
Qed.

(** C7, as the code has it: a style update returns and persists a profile
    in which every field among tone, detail, emojis and formatting that the
    body supplies has the new value.  The profile is built from the body
    alone, whatever was saved before, and a field of the body outside these
    four is dropped.  (When the write of the file fails nothing is saved
    and the route answers with its error.) *)
Theorem style_update_supplied_fields env (req_body : jsval) :
  exists profile : obj,
    (forall w,
       AiRouter.post_style env req_body w =
         match fs_write_fault env (tick w) (JSON_stringify env (JObj profile)) with
         | None =>
             (Ok (mkResponse 200 (JObj [("ok", JBool true); ("profile", JObj profile)])),
              set_profile_file (Some (JSON_stringify env (JObj profile))) w)
         | Some e => (Ok style_failed, style_error_logged e w)
         end) /\
    (forall k,
       In k ["tone"; "detail"; "emojis"; "formatting"] ->
       AiRouter.body_field req_body k <> JUndefined ->
       lookup_prop k profile = AiRouter.body_field req_body k) /\
    (forall k,
       ~ In k ["tone"; "detail"; "emojis"; "formatting"] ->
       has_prop k profile = false).
Proof.
  eexists. split; [| split].
  - intros w. apply post_style_run.
  - intros k Hin _. simpl in Hin.
    destruct Hin as [<- | [<- | [<- | [<- | []]]]]; reflexivity.
  - intros k Hout. unfold has_prop. cbn -[String.eqb].
    repeat match goal with
           | |- context [String.eqb ?a k] =>
               let E := fresh "E" in
               destruct (String.eqb_spec a k) as [E | E];
               [exfalso; apply Hout; rewrite <- E; simpl; tauto |]
           end.
    reflexivity.
Qed.

(** C7 as stated fails: after a full save, an update that only carries a
    new tone and an unknown field answers with a profile whose detail is no
    longer the saved one, and without the unknown field; the file holds the
    tone alone. *)
Lemma style_update_counterexample :
  exists r1 w1 r2 w2,
    AiRouter.post_style Sample.env_down Sample.full_style Sample.world0 = (Ok r1, w1) /\
    get (get (body r1) "profile") "detail" = JStr "high" /\
    AiRouter.post_style Sample.env_down Sample.partial_style w1 = (Ok r2, w2) /\
    get (get (body r2) "profile") "tone" = JStr "blunt" /\
    get (get (body r2) "profile") "detail" <> JStr "high" /\
    get (get (body r2) "profile") "nickname" <> JStr "Dax" /\
    profile_file w2 =
      Some (Str.lines ["{"; "  " +:+ Str.quoted "tone" +:+ ": " +:+ Str.quoted "blunt"; "}"]).
Proof.
  do 4 eexists.
  split; [rewrite post_style_run; reflexivity |].
  split; [reflexivity |].
  split; [rewrite post_style_run; reflexivity |].
  split; [reflexivity |].
  split; [cbn; discriminate |].
  split; [cbn; discriminate |].
  vm_compute. reflexivity.
Qed.

Lemma style_update_supplied_fields_witness :
  AiRouter.body_field Sample.partial_style "tone" <> JUndefined /\
  exists profile w',
    AiRouter.post_style Sample.env_down Sample.partial_style Sample.world0 =
      (Ok (mkResponse 200 (JObj [("ok", JBool true); ("profile", JObj profile)])), w') /\
    lookup_prop "tone" profile = JStr "blunt" /\
    has_prop "nickname" profile = false.
Proof.
  assert (Htone : AiRouter.body_field Sample.partial_style "tone" <> JUndefined)
    by (cbn; discriminate).
  split; [exact Htone |].
  destruct (style_update_supplied_fields Sample.env_down Sample.partial_style)
    as (profile & Hrun & Hsupplied & Hdropped).
  exists profile. eexists. split; [rewrite Hrun; reflexivity |]. split.
  - rewrite (Hsupplied "tone"); [reflexivity | simpl; tauto | exact Htone].
  - apply Hdropped. simpl. intros [H | [H | [H | [H | []]]]]; discriminate.
Defined.

(** ** Input validation *)

(** C8: when [message] (chat) or [instructions] (schematic) is missing or
    not a string, the route answers at once with status 400 and ok:false,
    for chat with the error text Missing 'message' string, and the world is
    untouched: no model was called. *)
Theorem invalid_request_rejected env (req_body : jsval) (w : World) :
  ((forall s, AiRouter.body_field req_body "message" <> JStr s) ->
   AiRouter.post_chat env req_body w =
     (Ok (mkResponse 400
            (JObj [("ok", JBool false); ("error", JStr "Missing 'message' string")])), w)) /\
  ((forall s, AiRouter.body_field req_body "instructions" <> JStr s) ->
   AiRouter.post_schematic env req_body w =
     (Ok (mkResponse 400
            (JObj [("ok", JBool false); ("error", JStr "Missing 'instructions' string")])), w)).
Proof.
  split; intros Hbad.
  - unfold AiRouter.post_chat, try_catch.
    rewrite (not_string_rejected _ Hbad). reflexivity.
  - unfold AiRouter.post_schematic, try_catch.
    rewrite (not_string_rejected _ Hbad). reflexivity.
Qed.

Lemma invalid_request_rejected_witness :
  (forall s, AiRouter.body_field (JObj []) "message" <> JStr s) /\
  (forall s, AiRouter.body_field (JObj [("instructions", JNum 7%float)]) "instructions" <> JStr s) /\
  AiRouter.post_chat Sample.env_down (JObj []) Sample.world0 =
    (Ok (mkResponse 400
           (JObj [("ok", JBool false); ("error", JStr "Missing 'message' string")])),
     Sample.world0) /\
  AiRouter.post_schematic Sample.env_down (JObj [("instructions", JNum 7%float)]) Sample.world0 =
    (Ok (mkResponse 400
           (JObj [("ok", JBool false); ("error", JStr "Missing 'instructions' string")])),
     Sample.world0).
Proof.
  assert (H1 : forall s, AiRouter.body_field (JObj []) "message" <> JStr s)
    by (intros s; cbn; discriminate).
  assert (H2 : forall s,
             AiRouter.body_field (JObj [("instructions", JNum 7%float)]) "instructions" <> JStr s)
    by (intros s; cbn; discriminate).
  split; [exact H1 |]. split; [exact H2 |]. split.
  - apply (proj1 (invalid_request_rejected Sample.env_down (JObj []) Sample.world0)), H1.
  - apply (proj2 (invalid_request_rejected Sample.env_down _ Sample.world0)), H2.
Defined.

(** ** The keyword heuristic and the automatic mode *)

Lemma prefix_app (p s : string) :
  String.prefix p s = true <-> exists rest, s = p +:+ rest.
Proof.
  revert s. induction p as [| c p IH]; intros s.
  - split; [intros _; exists s; reflexivity | intros _; now destruct s].
  - destruct s as [| d s]; cbn.
    + split; [discriminate | intros [rest Hrest]; discriminate].
    + destruct (ascii_dec c d) as [-> | Hne].
      * rewrite IH. split; intros [rest Hrest]; exists rest.
        -- now rewrite Hrest.
        -- now injection Hrest.
      * split; [discriminate | intros [rest Hrest]].
        injection Hrest as Hcd _. congruence.
Qed.

(** [includes] finds exactly the substrings. *)
Lemma includes_substring (s sub : string) :
  Str.includes s sub = true <-> exists before after, s = before +:+ sub +:+ after.
Proof.
  induction s as [| c s IH].
  - cbn [Str.includes]. rewrite orb_false_r, prefix_app. split.
    + intros [rest Hrest]. now exists EmptyString, rest.
    + intros (before & after & Heq). destruct before; [| discriminate].
      now exists after.
  - cbn [Str.includes]. rewrite orb_true_iff, prefix_app, IH. split.
    + intros [[rest Hrest] | (before & after & Heq)].
      * now exists EmptyString, rest.
      * exists (String c before), after. cbn. now rewrite Heq.
    + intros (before & after & Heq). destruct before as [| d before].
      * left. now exists after.
      * right. cbn in Heq. injection Heq as _ Heq. now exists before, after.
Qed.

Lemma has_term_3 lower a b c :
  has_term lower [a; b; c] <->
  Str.includes lower a || Str.includes lower b || Str.includes lower c = true.
Proof.
  rewrite !orb_true_iff, !includes_substring. unfold has_term. split.
  - intros (t & Hin & Hsub). simpl in Hin.
    destruct Hin as [<- | [<- | [<- | []]]]; auto.
  - intros [[H | H] | H]; [exists a | exists b | exists c]; simpl; auto.
Qed.

Lemma keywordMode_cases (message : string) :
  let lower := Str.toLowerCase message in
  (has_term lower ["create "; "factory"; "kinetic"] ->
   AiRouter.keywordMode message = "create") /\
  (~ has_term lower ["create "; "factory"; "kinetic"] ->
   has_term lower ["forge"; "fabric"; "gradle"] ->
   AiRouter.keywordMode message = "pro") /\
  (~ has_term lower ["create "; "factory"; "kinetic"] ->
   ~ has_term lower ["forge"; "fabric"; "gradle"] ->
   AiRouter.keywordMode message = "general").
Proof.
  intros lower. unfold AiRouter.keywordMode. fold lower.
  rewrite !has_term_3.
  destruct (Str.includes lower "create " || Str.includes lower "factory"
            || Str.includes lower "kinetic");
  destruct (Str.includes lower "forge" || Str.includes lower "fabric"
            || Str.includes lower "gradle");
  repeat split; intros; congruence.
Qed.

Lemma is_str_true v lit : is_str v lit = true -> v = JStr lit.
Proof.
  destruct v; cbn; try discriminate.
  intros H. apply String.eqb_eq in H. now subst.
Qed.

(** Every run of [autoMode], by the answer of the router model. *)
Lemma autoMode_run env message w :
  let msgs := [AiRouter.system (AUTO_ROUTER_PROMPT env); AiRouter.user message] in
  let w1 := log_call (CallGroq msgs) w in
  let fallback e := (Ok (JStr (AiRouter.keywordMode message)), log_console (warned e) w1) in
  AiRouter.autoMode env message w =
    match groq_create env (tick w) msgs with
    | Throw e => fallback e
    | Ok c =>
        match JSON_parse env (AiRouter.content_or_placeholder c) with
        | Throw e => fallback e
        | Ok parsed =>
            match getProp parsed "mode" with
            | Throw e => fallback e
            | Ok mode =>
                if known_mode mode then (Ok mode, w1)
                else (Ok (JStr (AiRouter.keywordMode message)), w1)
            end
        end
    end.
Proof.
  intros msgs w1 fallback.
  unfold AiRouter.autoMode, bind, try_catch, AiRouter.groqChat, bind,
    AiRouter.completions_create, lift, ret.
  fold msgs. fold w1.
  destruct (groq_create env (tick w) msgs) as [c | e]; [| reflexivity].
  destruct (JSON_parse env (AiRouter.content_or_placeholder c)) as [parsed | e];
    [| reflexivity].
  destruct (getProp parsed "mode") as [mode | e]; [| reflexivity].
  unfold known_mode.
  destruct (is_str mode "create" || is_str mode "pro" || is_str mode "general");
    reflexivity.
Qed.

(** C2: with mode auto, whenever the model-based classification fails (the
    call raises, its answer is not JSON, or the answer's mode is none of
    create, pro, general) the classification still returns, and what it
    returns is the keyword result on the lowercased message: create when a
    create-style term occurs, else pro when a pro-style term occurs, else
    general.  On build a factory that is create. *)
Theorem auto_mode_falls_back env (message : string) (w : World) :
  let msgs := [AiRouter.system (AUTO_ROUTER_PROMPT env); AiRouter.user message] in
  let lower := Str.toLowerCase message in
  ((exists e, groq_create env (tick w) msgs = Throw e) \/
   (exists c e,
      groq_create env (tick w) msgs = Ok c /\
      JSON_parse env (AiRouter.content_or_placeholder c) = Throw e) \/
   (exists c parsed,
      groq_create env (tick w) msgs = Ok c /\
      JSON_parse env (AiRouter.content_or_placeholder c) = Ok parsed /\
      forall m, In m ["create"; "pro"; "general"] -> getProp parsed "mode" <> Ok (JStr m))) ->
  exists mode w',
    AiRouter.chosenMode env message (JStr "auto") w = (Ok (JStr mode), w') /\
    (has_term lower ["create "; "factory"; "kinetic"] -> mode = "create") /\
    (~ has_term lower ["create "; "factory"; "kinetic"] ->
     has_term lower ["forge"; "fabric"; "gradle"] -> mode = "pro") /\
    (~ has_term lower ["create "; "factory"; "kinetic"] ->
     ~ has_term lower ["forge"; "fabric"; "gradle"] -> mode = "general") /\
    (message = "build a factory" -> mode = "create").
Proof.
  intros msgs lower Hfail.
  assert (Hrun : exists w',
             AiRouter.autoMode env message w = (Ok (JStr (AiRouter.keywordMode message)), w')).
  { rewrite autoMode_run. fold msgs.
    destruct Hfail as [[e He] | [(c & e & Hc & He) | (c & parsed & Hc & Hp & Hmode)]].
    - rewrite He. eauto.
    - rewrite Hc, He. eauto.
    - rewrite Hc, Hp.
      destruct (getProp parsed "mode") as [mode | e] eqn:Hget; [| eauto].
      assert (Hunknown : known_mode mode = false).
      { unfold known_mode.
        destruct (is_str mode "create") eqn:E1.
        { apply is_str_true in E1. subst. destruct (Hmode "create"); simpl; auto. }
        destruct (is_str mode "pro") eqn:E2.
        { apply is_str_true in E2. subst. destruct (Hmode "pro"); simpl; auto. }
        destruct (is_str mode "general") eqn:E3.
        { apply is_str_true in E3. subst. destruct (Hmode "general"); simpl; auto. }
        reflexivity. }
      rewrite Hunknown. eauto. }
  destruct Hrun as [w' Hrun].
  exists (AiRouter.keywordMode message), w'.
  split; [exact Hrun |].
  destruct (keywordMode_cases message) as (Hc & Hp & Hg).
  repeat split; auto.
  intros ->. reflexivity.
Qed.

Lemma auto_mode_falls_back_witness :
  (exists e,
     groq_create Sample.env_down (tick Sample.world0)
       [AiRouter.system (AUTO_ROUTER_PROMPT Sample.env_down); AiRouter.user "build a factory"]
     = Throw e) /\
  exists w',
    AiRouter.chosenMode Sample.env_down "build a factory" (JStr "auto") Sample.world0
    = (Ok (JStr "create"), w').
Proof.
  assert (Hdown : exists e,
     groq_create Sample.env_down (tick Sample.world0)
       [AiRouter.system (AUTO_ROUTER_PROMPT Sample.env_down); AiRouter.user "build a factory"]
     = Throw e) by (eexists; reflexivity).
  split; [exact Hdown |].
  destruct (auto_mode_falls_back Sample.env_down "build a factory" Sample.world0
              (or_introl Hdown)) as (mode & w' & Hrun & _ & _ & _ & Hfactory).
  exists w'. rewrite Hrun, (Hfactory eq_refl). reflexivity.
Defined.

(** ** The history block *)

Lemma slice0_length n s : String.length (Str.slice0 n s) <= n.
Proof.
  unfold Str.slice0. revert s.
  induction n as [| n IH]; intros [| c s]; cbn; try lia.
  specialize (IH s). lia.
Qed.

Lemma slice0_prefix n s : exists rest, s = Str.slice0 n s +:+ rest.
Proof.
  unfold Str.slice0. revert s.
  induction n as [| n IH]; intros [| c s]; cbn.
  - now exists EmptyString.
  - now exists (String c s).
  - now exists EmptyString.
  - destruct (IH s) as [rest Hrest]. exists rest.
    change (String c s = String c (substring 0 n s +:+ rest)). now f_equal.
Qed.

Lemma slice0_short n s : String.length s <= n -> Str.slice0 n s = s.
Proof.
  unfold Str.slice0. revert s.
  induction n as [| n IH]; intros [| c s]; cbn; intros Hlen; try reflexivity; try lia.
  rewrite IH; [reflexivity | lia].
Qed.

Lemma slice_last_app {A} (older last : list A) :
  AiRouter.slice_last (List.length last) (older ++ last)%list = last.
Proof.
  unfold AiRouter.slice_last. rewrite length_app.
  replace (List.length older + List.length last - List.length last) with (List.length older)
    by lia.
  apply drop_app_length.
Qed.

Lemma last_four {A} (l : list A) :
  4 < List.length l ->
  exists older a b c d, l = (older ++ [a; b; c; d])%list /\ older <> [].
Proof.
  intros Hlen.
  pose proof (take_drop (List.length l - 4) l) as Hsplit.
  pose proof (length_drop l (List.length l - 4)) as Hdrop.
  pose proof (length_take l (List.length l - 4)) as Htake.
  destruct (drop (List.length l - 4) l) as [| a [| b [| c [| d [| x rest]]]]];
    cbn in Hdrop; try lia.
  exists (take (List.length l - 4) l), a, b, c, d. split; [now rewrite Hsplit |].
  intros Hnil. rewrite Hnil in Htake. cbn in Htake. lia.
Qed.

Lemma ToString_string env s : ToString env (JStr s) = Ok s.
Proof. reflexivity. Qed.

Lemma truthy_string s : s <> "" -> truthy (JStr s) = true.
Proof. destruct s; [congruence | reflexivity]. Qed.

Lemma loadProject_run env p w :
  Memory.loadProject env (JStr p) w =
    match store_fault env (tick w) (CallLoadProject p) with
    | Some e => (Throw e, log_call (CallLoadProject p) w)
    | None => (Ok (projects w !! p), log_call (CallLoadProject p) w)
    end.
Proof.
  unfold Memory.loadProject, bind, lift, Memory.store_op, gets. cbn.
  destruct (store_fault env (tick w) (CallLoadProject p)); reflexivity.
Qed.

Lemma historyText_run env p w :
  p <> "" ->
  store_fault env (tick w) (CallLoadProject p) = None ->
  AiRouter.historyText env (JStr p) w =
    (Ok match conversation_of w p with
        | [] => ""
        | _ :: _ => AiRouter.historyBlock (conversation_of w p)
        end,
     log_call (CallLoadProject p) w).
Proof.
  intros Hp Hok. unfold AiRouter.historyText.
  rewrite (truthy_string p Hp). unfold bind at 1.
  rewrite loadProject_run, Hok. unfold conversation_of.
  destruct (projects w !! p) as [pr |]; [| reflexivity].
  destruct (conversation pr); reflexivity.
Qed.

(** C5: without a project name, or when the project has no history (no
    record, or an empty conversation), the history text is empty and the
    system content is the mode prompt and the style text alone.  A history
    of more than four turns yields the heading and exactly its last four
    turns, in their order, one line [[role] content] each, the content cut
    to its first 200 characters at most; the block comes last in the system
    content. *)
Theorem history_block env (p : string) (w : World) :
  p <> "" ->
  store_fault env (tick w) (CallLoadProject p) = None ->
  let conv := conversation_of w p in
  let loaded := log_call (CallLoadProject p) w in
  let line m := "[" +:+ t_role m +:+ "] " +:+ Str.slice0 200 (t_content m) in
  let blank := Str.nl +:+ Str.nl in
  (AiRouter.historyText env JUndefined w = (Ok "", w) /\
   AiRouter.historyText env JNull w = (Ok "", w)) /\
  (conv = [] -> AiRouter.historyText env (JStr p) w = (Ok "", loaded)) /\
  (forall modePrompt styleText,
     AiRouter.systemContent modePrompt styleText "" =
       Str.join blank (List.filter Str.nonempty [modePrompt; styleText])) /\
  (4 < List.length conv ->
   exists older a b c d,
     conv = (older ++ [a; b; c; d])%list /\ older <> [] /\
     AiRouter.historyText env (JStr p) w =
       (Ok ("Recent project messages:" +:+ Str.nl +:+
            line a +:+ Str.nl +:+ line b +:+ Str.nl +:+ line c +:+ Str.nl +:+ line d),
        loaded) /\
     (forall modePrompt styleText,
        AiRouter.systemContent modePrompt styleText (AiRouter.historyBlock conv) =
          Str.join blank (List.filter Str.nonempty [modePrompt; styleText]
                          ++ [AiRouter.historyBlock conv])%list)) /\
  (forall m : Turn,
     String.length (Str.slice0 200 (t_content m)) <= 200 /\
     (exists rest, t_content m = Str.slice0 200 (t_content m) +:+ rest) /\
     (String.length (t_content m) <= 200 -> Str.slice0 200 (t_content m) = t_content m)).
Proof.
  intros Hp Hok conv loaded line blank.
  split; [split; reflexivity |].
  split.
  { intros Hempty. rewrite (historyText_run env p w Hp Hok).
    fold conv. now rewrite Hempty. }
  split.
  { intros modePrompt styleText. unfold AiRouter.systemContent. cbn [List.filter].
    destruct (Str.nonempty modePrompt), (Str.nonempty styleText); reflexivity. }
  split.
  { intros Hlen. destruct (last_four conv Hlen) as (older & a & b & c & d & Hconv & Holder).
    exists older, a, b, c, d. split; [exact Hconv |]. split; [exact Holder |].
    assert (Hblock : AiRouter.historyBlock conv =
              "Recent project messages:" +:+ Str.nl +:+
              line a +:+ Str.nl +:+ line b +:+ Str.nl +:+ line c +:+ Str.nl +:+ line d).
    { unfold AiRouter.historyBlock. rewrite Hconv.
      pose proof (slice_last_app older [a; b; c; d]) as Hlast.
      cbn [List.length] in Hlast. rewrite Hlast. reflexivity. }
    split.
    - rewrite (historyText_run env p w Hp Hok). fold conv.
      rewrite <- Hblock.
      destruct conv; [cbn in Hlen; lia | reflexivity].
    - intros modePrompt styleText. unfold AiRouter.systemContent. cbn [List.filter].
      assert (Hne : Str.nonempty (AiRouter.historyBlock conv) = true) by reflexivity.
      rewrite Hne.
      destruct (Str.nonempty modePrompt), (Str.nonempty styleText); reflexivity. }
  intros m. split; [apply slice0_length |]. split; [apply slice0_prefix | apply slice0_short].
Qed.

Lemma history_block_witness :
  "p1" <> "" /\
  store_fault Sample.env_down (tick Sample.world_with_history) (CallLoadProject "p1") = None /\
  4 < List.length (conversation_of Sample.world_with_history "p1") /\
  exists older a b c d,
    conversation_of Sample.world_with_history "p1" = (older ++ [a; b; c; d])%list /\
    AiRouter.historyText Sample.env_down (JStr "p1") Sample.world_with_history =
      (Ok ("Recent project messages:" +:+ Str.nl +:+
           AiRouter.turn_line a +:+ Str.nl +:+ AiRouter.turn_line b +:+ Str.nl +:+
           AiRouter.turn_line c +:+ Str.nl +:+ AiRouter.turn_line d),
       log_call (CallLoadProject "p1") Sample.world_with_history).
Proof.
  assert (Hp : "p1" <> "") by discriminate.
  assert (Hlen : 4 < List.length (conversation_of Sample.world_with_history "p1"))
    by (vm_compute; lia).
  split; [exact Hp |]. split; [reflexivity |]. split; [exact Hlen |].
  destruct (history_block Sample.env_down "p1" Sample.world_with_history Hp eq_refl)
    as (_ & _ & _ & Hlong & _).
  destruct (Hlong Hlen) as (older & a & b & c & d & Hconv & _ & Hrun & _).
  exists older, a, b, c, d. split; [exact Hconv | exact Hrun].
Defined.

Example sample_history_text :
  AiRouter.historyText Sample.env_down (JStr "p1") Sample.world_with_history =
    (Ok (Str.lines [ "Recent project messages:"; "[assistant] two"; "[user] three";
                     "[assistant] four"; "[user] five" ]),
     log_call (CallLoadProject "p1") Sample.world_with_history).
Proof. vm_compute. reflexivity. Qed.

(** ** The chat route *)

Lemma tick_log_call c w : tick (log_call c w) = S (tick w).
Proof. unfold tick, log_call. cbn. rewrite length_app. cbn. lia. Qed.

Lemma only_read_refl w : only_read w w.
Proof.
  repeat split. exists []. split; [now rewrite app_nil_r | constructor].
Qed.

Lemma only_read_trans w1 w2 w3 : only_read w1 w2 -> only_read w2 w3 -> only_read w1 w3.
Proof.
  intros (Hp1 & Hb1 & c1 & Ht1 & Hc1) (Hp2 & Hb2 & c2 & Ht2 & Hc2).
  split; [congruence |]. split; [congruence |].
  exists (c1 ++ c2)%list. split.
  - rewrite Ht2, Ht1. now rewrite <- app_assoc.
  - apply Forall_app. split; assumption.
Qed.

Lemma only_read_log_call c w : reads_only c -> only_read w (log_call c w).
Proof.
  intros Hc. repeat split. exists [c]. split; [reflexivity | now constructor].
Qed.

Lemma only_read_log_console e w : only_read w (log_console e w).
Proof.
  repeat split. exists []. split; [cbn; now rewrite app_nil_r | constructor].
Qed.

Lemma loadUserProfile_only_read env w r w' :
  UserProfile.loadUserProfile env w = (r, w') -> only_read w w'.
Proof.
  intros Hrun. destruct (loadUserProfile_frame env w r w' Hrun) as (Hp & Ht & Hb).
  split; [exact Hp |]. split; [exact Hb |].
  exists []. split; [now rewrite app_nil_r | constructor].
Qed.

Lemma autoMode_only_read env message w r w' :
  AiRouter.autoMode env message w = (r, w') -> only_read w w'.
Proof.
  rewrite autoMode_run.
  set (msgs := [AiRouter.system (AUTO_ROUTER_PROMPT env); AiRouter.user message]).
  assert (Hcall : only_read w (log_call (CallGroq msgs) w))
    by (apply only_read_log_call; exact I).
  assert (Hwarn : forall e, only_read w (log_console (warned e) (log_call (CallGroq msgs) w)))
    by (intros e; eapply only_read_trans; [exact Hcall | apply only_read_log_console]).
  destruct (groq_create env (tick w) msgs) as [c | e]; [| intros [= <- <-]; apply Hwarn].
  destruct (JSON_parse env (AiRouter.content_or_placeholder c)) as [parsed | e];
    [| intros [= <- <-]; apply Hwarn].
  destruct (getProp parsed "mode") as [mode | e]; [| intros [= <- <-]; apply Hwarn].
  destruct (known_mode mode); intros [= <- <-]; exact Hcall.
Qed.

Lemma chosenMode_only_read env message mode w r w' :
  AiRouter.chosenMode env message mode w = (r, w') -> only_read w w'.
Proof.
  unfold AiRouter.chosenMode. destruct (is_str mode "auto").
  - apply autoMode_only_read.
  - intros [= <- <-]. apply only_read_refl.
Qed.

Lemma historyText_only_read env projectName w r w' :
  AiRouter.historyText env projectName w = (r, w') -> only_read w w'.
Proof.
  unfold AiRouter.historyText. destruct (truthy projectName).
  - unfold bind at 1. unfold Memory.loadProject, bind, lift, Memory.store_op, gets.
    destruct (ToString env projectName) as [key | e]; [| intros [= <- <-]; apply only_read_refl].
    assert (Hcall : only_read w (log_call (CallLoadProject key) w))
      by (apply only_read_log_call; exact I).
    destruct (store_fault env (tick w) (CallLoadProject key)); [intros [= <- <-]; exact Hcall |].
    cbn. destruct (projects w !! key) as [pr |]; [| intros [= <- <-]; exact Hcall].
    destruct (conversation pr); intros [= <- <-]; exact Hcall.
  - intros [= <- <-]. apply only_read_refl.
Qed.

(** The steps before the chat request write nothing. *)
Lemma chatMessages_only_read env message mode projectName w r w' :
  AiRouter.chatMessages env message mode projectName w = (r, w') -> only_read w w'.
Proof.
  unfold AiRouter.chatMessages, bind, lift.
  destruct (UserProfile.loadUserProfile env w) as [[profile | e] w0] eqn:Hload;
    [| intros [= <- <-]; eapply loadUserProfile_only_read; exact Hload].
  apply loadUserProfile_only_read in Hload.
  destruct (AiRouter.chosenMode env message mode w0) as [[chosen | e] w1] eqn:Hmode;
    apply chosenMode_only_read in Hmode;
    [| intros [= <- <-]; eapply only_read_trans; eassumption].
  destruct (AiRouter.styleInstruction env profile) as [styleText | e];
    [| intros [= <- <-]; eapply only_read_trans; eassumption].
  destruct (AiRouter.historyText env projectName w1) as [[history | e] w2] eqn:Hhist;
    apply historyText_only_read in Hhist;
    intros [= <- <-]; eapply only_read_trans; try eassumption;
    eapply only_read_trans; eassumption.
Qed.

Lemma valid_message_accepted msg :
  msg <> "" -> negb (truthy (JStr msg)) || negb (is_string (JStr msg)) = false.
Proof. intros Hmsg. rewrite (truthy_string msg Hmsg). reflexivity. Qed.

(** The chat route, cut at the chat request. *)
Lemma post_chat_split env req_body w msg :
  AiRouter.body_field req_body "message" = JStr msg ->
  msg <> "" ->
  let mode := or_default_mode req_body in
  let projectName := AiRouter.body_field req_body "projectName" in
  AiRouter.post_chat env req_body w =
    match AiRouter.chatMessages env msg mode projectName w with
    | (Throw e, w1) => (Ok (chat_failed e), chat_error_logged e w1)
    | (Ok (chosen, msgs), w1) =>
        match groq_create env (tick w1) msgs with
        | Throw e => (Ok (chat_failed e), chat_error_logged e (log_call (CallGroq msgs) w1))
        | Ok completion =>
            let reply := AiRouter.content_or_placeholder completion in
            if truthy projectName then
              match (Memory.appendConversation env projectName "user" msg ;;
                     Memory.appendConversation env projectName "assistant" reply)
                      (log_call (CallGroq msgs) w1) with
              | (Ok _, w3) => (Ok (chat_ok chosen reply), w3)
              | (Throw e, w3) => (Ok (chat_failed e), chat_error_logged e w3)
              end
            else (Ok (chat_ok chosen reply), log_call (CallGroq msgs) w1)
        end
    end.
Proof.
  intros Hmsg Hne mode projectName.
  unfold AiRouter.post_chat, AiRouter.chatMessages, AiRouter.groqChat,
    AiRouter.completions_create, try_catch, bind, lift, ret, console_error, modify.
  rewrite Hmsg, (valid_message_accepted msg Hne).
  cbn [str_of]. fold projectName. fold (or_default_mode req_body). fold mode.
  destruct (UserProfile.loadUserProfile env w) as [[profile | e] w0]; [| reflexivity].
  destruct (AiRouter.chosenMode env msg mode w0) as [[chosen | e] w1]; [| reflexivity].
  destruct (AiRouter.styleInstruction env profile) as [styleText | e]; [| reflexivity].
  destruct (AiRouter.historyText env projectName w1) as [[history | e] w2]; [| reflexivity].
  destruct (groq_create env (tick w2) _) as [completion | e]; [| reflexivity].
  destruct (truthy projectName); [| reflexivity].
  destruct (Memory.appendConversation env projectName "user" msg _) as [[[] | e] w3];
    [| reflexivity].
  destruct (Memory.appendConversation env projectName "assistant" _ w3) as [[[] | e] w4];
    reflexivity.
Qed.

Lemma appendConversation_run env p r c w :
  let call := CallAppendConversation p r c in
  Memory.appendConversation env (JStr p) r c w =
    match store_fault env (tick w) call with
    | Some e => (Throw e, log_call call w)
    | None => (Ok tt, with_turn p (mkTurn r c (clock env (tick w))) (log_call call w))
    end.
Proof.
  intros call.
  unfold Memory.appendConversation, bind, lift, gets, Memory.store_op, modify. cbn.
  fold call. destruct (store_fault env (tick w) call); reflexivity.
Qed.

Lemma conversation_of_with_turn p turn w :
  conversation_of (with_turn p turn w) p = (conversation_of w p ++ [turn])%list.
Proof.
  unfold conversation_of, with_turn, Memory.project_or_new. cbn.
  rewrite lookup_insert_eq. cbn. now destruct (projects w !! p).
Qed.

Lemma conversation_of_with_turn_ne p q turn w :
  q <> p -> conversation_of (with_turn p turn w) q = conversation_of w q.
Proof.
  intros Hne. unfold conversation_of, with_turn. cbn.
  rewrite lookup_insert_ne by congruence. reflexivity.
Qed.

Lemma conversation_of_log_call c w p :
  conversation_of (log_call c w) p = conversation_of w p.
Proof. reflexivity. Qed.

Lemma conversation_of_only_read w w1 p :
  only_read w w1 -> conversation_of w1 p = conversation_of w p.
Proof. intros (Hp & _). unfold conversation_of. now rewrite Hp. Qed.

(** C3, as the code has it: for a chat request with a project name whose
    steps before the chat request raised nothing (they write no turn), if
    the chat model answers and neither append fails, the project's history
    grows by exactly two turns, the user message and then the reply, both
    appended after the chat call; if the chat model call raises, the
    project store is left as it was. *)
Theorem chat_appends_after_reply env (req_body : jsval) (w : World)
    (msg p : string) (chosen : jsval) (msgs : list Message) (w1 : World) :
  AiRouter.body_field req_body "message" = JStr msg -> msg <> "" ->
  AiRouter.body_field req_body "projectName" = JStr p -> p <> "" ->
  AiRouter.chatMessages env msg (or_default_mode req_body) (JStr p) w = (Ok (chosen, msgs), w1) ->
  let t := tick w1 in
  only_read w w1 /\
  (forall completion,
     groq_create env t msgs = Ok completion ->
     let reply := AiRouter.content_or_placeholder completion in
     store_fault env (t + 1) (CallAppendConversation p "user" msg) = None ->
     store_fault env (t + 2) (CallAppendConversation p "assistant" reply) = None ->
     exists w',
       AiRouter.post_chat env req_body w = (Ok (chat_ok chosen reply), w') /\
       conversation_of w' p =
         (conversation_of w p ++
          [mkTurn "user" msg (clock env (t + 1));
           mkTurn "assistant" reply (clock env (t + 2))])%list /\
       (forall q, q <> p -> conversation_of w' q = conversation_of w q) /\
       trace w' =
         (trace w1 ++
          [CallGroq msgs;
           CallAppendConversation p "user" msg;
           CallAppendConversation p "assistant" reply])%list) /\
  (forall e,
     groq_create env t msgs = Throw e ->
     exists w',
       AiRouter.post_chat env req_body w = (Ok (chat_failed e), w') /\
       projects w' = projects w /\
       trace w' = (trace w1 ++ [CallGroq msgs])%list).
Proof.
  intros Hmsg Hne Hproj Hp Hpre t.
  pose proof (chatMessages_only_read _ _ _ _ _ _ _ Hpre) as Hread.
  split; [exact Hread |].
  pose proof (post_chat_split env req_body w msg Hmsg Hne) as Hsplit.
  cbv zeta in Hsplit. rewrite Hproj, Hpre in Hsplit.
  rewrite (truthy_string p Hp) in Hsplit. fold t in Hsplit.
  split.
  - intros completion Hreply reply Hok1 Hok2.
    rewrite Hreply in Hsplit. fold reply in Hsplit.
    unfold bind in Hsplit.
    rewrite appendConversation_run in Hsplit. cbv zeta in Hsplit.
    rewrite tick_log_call in Hsplit. fold t in Hsplit.
    replace (S t) with (t + 1) in Hsplit by lia.
    rewrite Hok1 in Hsplit.
    rewrite appendConversation_run in Hsplit. cbv zeta in Hsplit.
    replace (tick (with_turn p (mkTurn "user" msg (clock env (t + 1)))
                     (log_call (CallAppendConversation p "user" msg)
                        (log_call (CallGroq msgs) w1)))) with (t + 2) in Hsplit
      by (unfold tick; cbn; rewrite !length_app; cbn; fold (tick w1); lia).
    rewrite Hok2 in Hsplit.
    eexists. split; [exact Hsplit |].
    split; [| split].
    + rewrite conversation_of_with_turn, conversation_of_log_call.
      rewrite conversation_of_with_turn, !conversation_of_log_call.
      rewrite (conversation_of_only_read w w1 p Hread).
      rewrite <- app_assoc. reflexivity.
    + intros q Hq.
      rewrite conversation_of_with_turn_ne, conversation_of_log_call by exact Hq.
      rewrite conversation_of_with_turn_ne, !conversation_of_log_call by exact Hq.
      apply conversation_of_only_read, Hread.
    + cbn. rewrite <- !app_assoc. reflexivity.
  - intros e Hfail. rewrite Hfail in Hsplit.
    eexists. split; [exact Hsplit |].
    split; [| reflexivity].
    cbn. apply Hread.
Qed.

Lemma chat_appends_after_reply_witness :
  let env := Sample.env_with (Sample.groq_says (Some "Use a water wheel."))
               Sample.gemini_down Sample.no_fault in
  AiRouter.body_field Sample.chat_request "message" = JStr "how do I power it?" /\
  AiRouter.body_field Sample.chat_request "projectName" = JStr "p1" /\
  exists w',
    AiRouter.post_chat env Sample.chat_request Sample.world0 =
      (Ok (chat_ok (JStr "general") "Use a water wheel."), w') /\
    conversation_of w' "p1" =
      [ Sample.turn "user" "how do I power it?";
        Sample.turn "assistant" "Use a water wheel." ].
Proof.
  intros env. split; [reflexivity |]. split; [reflexivity |].
  edestruct (chat_appends_after_reply env Sample.chat_request Sample.world0
               "how do I power it?" "p1") as (_ & Hok & _).
  - reflexivity.
  - discriminate.
  - reflexivity.
  - discriminate.
  - lazy. reflexivity.
  - destruct (Hok (Sample.completion_of (Some "Use a water wheel.")) eq_refl eq_refl eq_refl)
      as (w' & Hrun & Hconv & _).
    exists w'. split; [exact Hrun | rewrite Hconv; reflexivity].
Defined.

(** C3 as stated fails: the chat model answers, the store takes the user
    turn and then refuses the assistant turn; the request ends with one
    turn appended to p1, not two, and is answered as an error. *)
Lemma chat_appends_counterexample :
  let env := Sample.env_with (Sample.groq_says (Some "Use a water wheel."))
               Sample.gemini_down Sample.fault_on_assistant_turn in
  let run := AiRouter.post_chat env Sample.chat_request Sample.world0 in
  fst run = Ok (chat_failed Sample.disk_error) /\
  (exists system_content,
     trace (snd run) =
       [ CallLoadProject "p1";
         CallGroq [AiRouter.system system_content; AiRouter.user "how do I power it?"];
         CallAppendConversation "p1" "user" "how do I power it?";
         CallAppendConversation "p1" "assistant" "Use a water wheel." ] /\
     groq_create env 1 [AiRouter.system system_content; AiRouter.user "how do I power it?"]
       = Ok (Sample.completion_of (Some "Use a water wheel."))) /\
  conversation_of Sample.world0 "p1" = [] /\
  conversation_of (snd run) "p1" = [Sample.turn "user" "how do I power it?"].
Proof.
  intros env run.
  split; [vm_compute; reflexivity |].
  split; [eexists; split; [lazy; reflexivity | reflexivity] |].
  split; vm_compute; reflexivity.
Qed.

(** C6, as the code has it: when the chat model returns no content (no
    first choice, no message in it, or a null content) the reply of the
    answer is the placeholder (no reply); any completion text, the empty
    one too, is the reply as it is. *)
Theorem reply_or_placeholder env (req_body : jsval) (w : World)
    (msg : string) (chosen : jsval) (msgs : list Message) (w1 : World)
    (completion : Completion) :
  AiRouter.body_field req_body "message" = JStr msg -> msg <> "" ->
  AiRouter.chatMessages env msg (or_default_mode req_body)
    (AiRouter.body_field req_body "projectName") w = (Ok (chosen, msgs), w1) ->
  groq_create env (tick w1) msgs = Ok completion ->
  exists r w',
    AiRouter.post_chat env req_body w = (Ok r, w') /\
    (AiRouter.first_content completion = None ->
     status r = 200 -> r = chat_ok chosen "(no reply)") /\
    (forall text,
       AiRouter.first_content completion = Some text ->
       status r = 200 -> r = chat_ok chosen text) /\
    (truthy (AiRouter.body_field req_body "projectName") = false -> status r = 200).
Proof.
  intros Hmsg Hne Hpre Hreply.
  pose proof (post_chat_split env req_body w msg Hmsg Hne) as Hsplit.
  cbv zeta in Hsplit. rewrite Hpre, Hreply in Hsplit.
  assert (Hnone : AiRouter.first_content completion = None ->
                  AiRouter.content_or_placeholder completion = "(no reply)")
    by (unfold AiRouter.content_or_placeholder; now intros ->).
  assert (Hsome : forall text, AiRouter.first_content completion = Some text ->
                  AiRouter.content_or_placeholder completion = text)
    by (unfold AiRouter.content_or_placeholder; now intros text ->).
  destruct (truthy (AiRouter.body_field req_body "projectName")).
  - case_run Hsplit.
    + do 2 eexists. split; [exact Hsplit |].
      split; [intros H _; now rewrite (Hnone H) |].
      split; [intros text H _; now rewrite (Hsome text H) | discriminate].
    + do 2 eexists. split; [exact Hsplit |].
      split; [intros _; discriminate |].
      split; [intros text _; discriminate | discriminate].
  - do 2 eexists. split; [exact Hsplit |].
    split; [intros H _; now rewrite (Hnone H) |].
    split; [intros text H _; now rewrite (Hsome text H) | reflexivity].
Qed.

Lemma reply_or_placeholder_witness :
  let env := Sample.env_with (Sample.groq_says None) Sample.gemini_down Sample.no_fault in
  AiRouter.first_content (Sample.completion_of None) = None /\
  exists w',
    AiRouter.post_chat env Sample.plain_request Sample.world0 =
      (Ok (chat_ok (JStr "general") "(no reply)"), w').
Proof.
  intros env. split; [reflexivity |].
  edestruct (reply_or_placeholder env Sample.plain_request Sample.world0 "hi")
    as (r & w' & Hrun & Hnone & _ & Hstatus).
  - reflexivity.
  - discriminate.
  - lazy. reflexivity.
  - reflexivity.
  - exists w'. rewrite Hrun. rewrite (Hnone eq_refl (Hstatus eq_refl)). reflexivity.
Defined.

(** C6 as stated fails: on an empty completion text the reply is the empty
    string, not the placeholder. *)
Lemma empty_reply_counterexample :
  let env := Sample.env_with (Sample.groq_says (Some "")) Sample.gemini_down Sample.no_fault in
  let run := AiRouter.post_chat env Sample.plain_request Sample.world0 in
  AiRouter.first_content (Sample.completion_of (Some "")) = Some "" /\
  fst run = Ok (chat_ok (JStr "general") "") /\
  fst run <> Ok (chat_ok (JStr "general") "(no reply)").
Proof.
  intros env run. split; [reflexivity |].
  assert (Hrun : fst run = Ok (chat_ok (JStr "general") "")) by (vm_compute; reflexivity).
  split; [exact Hrun |]. rewrite Hrun. discriminate.
Qed.

(** ** The schematic route *)

Lemma getOpt_get v k : getOpt v k = get v k.
Proof. now destruct v. Qed.

Lemma lookup_set_prop_eq k x o : lookup_prop k (set_prop k x o) = x.
Proof.
  induction o as [| [k' v] o IH]; cbn.
  - now rewrite String.eqb_refl.
  - destruct (String.eqb k' k) eqn:E; cbn; rewrite E; [reflexivity | exact IH].
Qed.

Lemma lookup_set_prop_ne k k' x o :
  k' <> k -> lookup_prop k' (set_prop k x o) = lookup_prop k' o.
Proof.
  intros Hne. induction o as [| [k0 v] o IH]; cbn.
  - destruct (String.eqb_spec k k'); [congruence | reflexivity].
  - destruct (String.eqb_spec k0 k) as [-> | Hk]; cbn.
    + destruct (String.eqb_spec k k'); [congruence | reflexivity].
    + now rewrite IH.
Qed.

(** The enrichment, by the truth of [stress.machines]. *)
Lemma withStressEstimate_cases env blueprint :
  let machines := get (get blueprint "stress") "machines" in
  let baseStress := get (get blueprint "stress") "baseStress" in
  (truthy machines = false -> AiRouter.withStressEstimate env blueprint = blueprint) /\
  (truthy machines = true ->
   get (AiRouter.withStressEstimate env blueprint) "stressEstimate" =
     estimateStress env machines (if truthy baseStress then baseStress else JNum 256%float) /\
   forall k, k <> "stressEstimate" ->
     get (AiRouter.withStressEstimate env blueprint) k = get blueprint k).
Proof.
  intros machines baseStress. unfold AiRouter.withStressEstimate.
  rewrite !getOpt_get. fold machines. fold baseStress. split.
  - now intros ->.
  - intros Htrue. rewrite Htrue.
    destruct blueprint as [| | b | f | s | items | o];
      try (cbn in machines; subst machines; discriminate).
    cbn [AiRouter.assign get]. split.
    + now rewrite lookup_set_prop_eq.
    + intros k Hk. now apply lookup_set_prop_ne.
Qed.

Lemma withStressEstimate_degraded env err text :
  AiRouter.withStressEstimate env (degraded err text) = degraded err text.
Proof. reflexivity. Qed.

Lemma valid_instructions_accepted instr :
  instr <> "" -> negb (truthy (JStr instr)) || negb (is_string (JStr instr)) = false.
Proof. intros Hne. rewrite (truthy_string instr Hne). reflexivity. Qed.

(** The schematic route, by the answer of the blueprint model. *)
Lemma post_schematic_split env req_body w instr :
  AiRouter.body_field req_body "instructions" = JStr instr ->
  instr <> "" ->
  let projectName := AiRouter.body_field req_body "projectName" in
  let prompt := AiRouter.schematicPrompt instr in
  let w1 := log_call (CallGemini prompt) w in
  AiRouter.post_schematic env req_body w =
    match gemini_text env (tick w) prompt with
    | Throw e => (Ok (schematic_failed e), schematic_error_logged e w1)
    | Ok text =>
        let blueprint := AiRouter.withStressEstimate env (AiRouter.parsedBlueprint env text) in
        if truthy projectName then
          match (Memory.saveSchematic env projectName blueprint ;;
                 Memory.saveBlueprintFile env projectName blueprint) w1 with
          | (Ok _, w2) => (Ok (schematic_ok blueprint), w2)
          | (Throw e, w2) => (Ok (schematic_failed e), schematic_error_logged e w2)
          end
        else (Ok (schematic_ok blueprint), w1)
    end.
Proof.
  intros Hinstr Hne projectName prompt w1.
  unfold AiRouter.post_schematic, AiRouter.generateContent_text, try_catch, bind, ret,
    console_error, modify.
  rewrite Hinstr, (valid_instructions_accepted instr Hne).
  cbn [str_of]. fold projectName. fold prompt. fold w1.
  destruct (gemini_text env (tick w) prompt) as [text | e]; [| reflexivity].
  destruct (truthy projectName); [| reflexivity].
  destruct (Memory.saveSchematic env projectName _ w1) as [[[] | e] w2]; [| reflexivity].
  destruct (Memory.saveBlueprintFile env projectName _ w2) as [[[] | e] w3]; reflexivity.
Qed.

Lemma saveSchematic_run env name key blueprint w :
  ToString env name = Ok key ->
  Memory.saveSchematic env name blueprint w =
    match store_fault env (tick w) (CallSaveSchematic key blueprint) with
    | Some e => (Throw e, log_call (CallSaveSchematic key blueprint) w)
    | None =>
        (Ok tt, with_schematic key blueprint (log_call (CallSaveSchematic key blueprint) w))
    end.
Proof.
  intros Hkey. unfold Memory.saveSchematic, bind, lift, Memory.store_op, modify.
  rewrite Hkey.
  destruct (store_fault env (tick w) (CallSaveSchematic key blueprint)); reflexivity.
Qed.

Lemma saveBlueprintFile_run env name key blueprint w :
  ToString env name = Ok key ->
  Memory.saveBlueprintFile env name blueprint w =
    match store_fault env (tick w) (CallSaveBlueprintFile key blueprint) with
    | Some e => (Throw e, log_call (CallSaveBlueprintFile key blueprint) w)
    | None =>
        (Ok tt,
         with_blueprint_file key blueprint (log_call (CallSaveBlueprintFile key blueprint) w))
    end.
Proof.
  intros Hkey. unfold Memory.saveBlueprintFile, bind, lift, Memory.store_op, modify.
  rewrite Hkey.
  destruct (store_fault env (tick w) (CallSaveBlueprintFile key blueprint)); reflexivity.
Qed.

(** Both sinks accept the blueprint. *)
Lemma persist_run env projectName key blueprint w :
  ToString env projectName = Ok key ->
  store_fault env (tick w) (CallSaveSchematic key blueprint) = None ->
  store_fault env (tick w + 1) (CallSaveBlueprintFile key blueprint) = None ->
  exists w',
    (Memory.saveSchematic env projectName blueprint ;;
     Memory.saveBlueprintFile env projectName blueprint) w = (Ok tt, w').
Proof.
  intros Hkey Hok1 Hok2. unfold bind.
  rewrite (saveSchematic_run env projectName key blueprint w Hkey), Hok1.
  rewrite (saveBlueprintFile_run env projectName key blueprint _ Hkey).
  replace (tick (with_schematic key blueprint (log_call (CallSaveSchematic key blueprint) w)))
    with (tick w + 1)
    by (change (tick (with_schematic ?p ?b ?w0)) with (tick w0);
        rewrite tick_log_call; lia).
  rewrite Hok2. eauto.
Qed.

(** C1, as the code has it: when the answer of the blueprint model is not
    JSON, the blueprint is exactly [{parseError, raw}], the text of the
    parse error and the answer itself, with no stressEstimate; the route
    raises nothing, and it answers ok:true with that blueprint whenever no
    project name is given or both sinks accept the blueprint.  A failure
    of persistence is reported: when a project name is given and the
    project store refuses the blueprint, or the store accepts it and the
    file sink refuses it, the answer is 500 ok:false with the error of
    that sink, and so for any error that the two writes raise. *)
Theorem malformed_output_degrades env (req_body : jsval) (w : World)
    (instr text : string) (err : JsError) :
  AiRouter.body_field req_body "instructions" = JStr instr -> instr <> "" ->
  gemini_text env (tick w) (AiRouter.schematicPrompt instr) = Ok text ->
  JSON_parse env text = Throw err ->
  let projectName := AiRouter.body_field req_body "projectName" in
  let blueprint := JObj [("parseError", JStr (String_of_error err)); ("raw", JStr text)] in
  AiRouter.withStressEstimate env (AiRouter.parsedBlueprint env text) = blueprint /\
  get blueprint "stressEstimate" = JUndefined /\
  (exists r w',
     AiRouter.post_schematic env req_body w = (Ok r, w') /\
     (status r = 200 -> r = schematic_ok blueprint)) /\
  (truthy projectName = false ->
   exists w', AiRouter.post_schematic env req_body w = (Ok (schematic_ok blueprint), w')) /\
  (forall key,
     ToString env projectName = Ok key ->
     store_fault env (tick w + 1) (CallSaveSchematic key blueprint) = None ->
     store_fault env (tick w + 2) (CallSaveBlueprintFile key blueprint) = None ->
     exists w', AiRouter.post_schematic env req_body w = (Ok (schematic_ok blueprint), w')) /\
  (forall key e,
     truthy projectName = true -> ToString env projectName = Ok key ->
     store_fault env (tick w + 1) (CallSaveSchematic key blueprint) = Some e ->
     exists w', AiRouter.post_schematic env req_body w = (Ok (schematic_failed e), w')) /\
  (forall key e,
     truthy projectName = true -> ToString env projectName = Ok key ->
     store_fault env (tick w + 1) (CallSaveSchematic key blueprint) = None ->
     store_fault env (tick w + 2) (CallSaveBlueprintFile key blueprint) = Some e ->
     exists w', AiRouter.post_schematic env req_body w = (Ok (schematic_failed e), w')) /\
  (forall e w2,
     truthy projectName = true ->
     (Memory.saveSchematic env projectName blueprint ;;
      Memory.saveBlueprintFile env projectName blueprint)
       (log_call (CallGemini (AiRouter.schematicPrompt instr)) w) = (Throw e, w2) ->
     AiRouter.post_schematic env req_body w =
       (Ok (schematic_failed e), schematic_error_logged e w2)) /\
  (forall e,
     status (schematic_failed e) = 500 /\
     get (body (schematic_failed e)) "ok" = JBool false).
Proof.
  intros Hinstr Hne Htext Hparse projectName blueprint.
  assert (Hbp : AiRouter.withStressEstimate env (AiRouter.parsedBlueprint env text) = blueprint).
  { unfold AiRouter.parsedBlueprint. rewrite Hparse. reflexivity. }
  pose proof (post_schematic_split env req_body w instr Hinstr Hne) as Hsplit.
  cbv zeta in Hsplit. rewrite Htext, Hbp in Hsplit. fold projectName in Hsplit.
  set (w1 := log_call (CallGemini (AiRouter.schematicPrompt instr)) w) in *.
  assert (Ht1 : tick w1 = tick w + 1) by (unfold w1; rewrite tick_log_call; lia).
  split; [exact Hbp |]. split; [reflexivity |].
  split; [| split; [| split; [| split; [| split; [| split]]]]].
  - destruct (truthy projectName).
    + case_run Hsplit; do 2 eexists; (split; [exact Hsplit |]); [reflexivity | discriminate].
    + do 2 eexists. split; [exact Hsplit | reflexivity].
  - intros Hfalse. rewrite Hfalse in Hsplit. eauto.
  - intros key Hkey Hok1 Hok2.
    destruct (truthy projectName); [| eauto].
    destruct (persist_run env projectName key blueprint w1 Hkey) as [w2 Hpersist].
    + rewrite Ht1. exact Hok1.
    + rewrite Ht1. replace (tick w + 1 + 1) with (tick w + 2) by lia. exact Hok2.
    + rewrite Hpersist in Hsplit. eauto.
  - intros key e Htrue Hkey Hfault. rewrite Htrue in Hsplit. unfold bind in Hsplit.
    rewrite (saveSchematic_run env projectName key blueprint w1 Hkey), Ht1, Hfault in Hsplit.
    eauto.
  - intros key e Htrue Hkey Hok Hfault. rewrite Htrue in Hsplit. unfold bind in Hsplit.
    rewrite (saveSchematic_run env projectName key blueprint w1 Hkey), Ht1, Hok in Hsplit.
    set (w2 := with_schematic key blueprint (log_call (CallSaveSchematic key blueprint) w1))
      in *.
    assert (Ht2 : tick w2 = tick w + 2)
      by (change (tick w2) with (tick (log_call (CallSaveSchematic key blueprint) w1));
          rewrite tick_log_call; lia).
    rewrite (saveBlueprintFile_run env projectName key blueprint w2 Hkey), Ht2, Hfault
      in Hsplit.
    eauto.
  - intros e w2 Htrue Hthrow. rewrite Htrue, Hthrow in Hsplit. exact Hsplit.
  - intros e. split; reflexivity.
Qed.

Lemma malformed_output_degrades_witness :
  let env := Sample.env_with Sample.groq_down (Sample.gemini_says Sample.prose)
               Sample.no_fault in
  JSON_parse env Sample.prose = Throw (SyntaxError "Unexpected token") /\
  exists w',
    AiRouter.post_schematic env Sample.schematic_request Sample.world0 =
      (Ok (schematic_ok
             (JObj [ ("parseError", JStr "SyntaxError: Unexpected token");
                     ("raw", JStr Sample.prose) ])), w').
Proof.
  intros env. split; [reflexivity |].
  destruct (malformed_output_degrades env Sample.schematic_request Sample.world0
              "a windmill" Sample.prose (SyntaxError "Unexpected token"))
    as (_ & _ & _ & _ & Hsaved & _).
  - reflexivity.
  - discriminate.
  - reflexivity.
  - reflexivity.
  - apply (Hsaved "p1"); reflexivity.
Defined.

(** C1 as stated fails: the answer of the blueprint model is not JSON and
    the blueprint degrades, but the project store refuses it, and the route
    answers ok:false. *)
Lemma malformed_output_counterexample :
  let env := Sample.env_with Sample.groq_down (Sample.gemini_says Sample.prose)
               Sample.fault_on_schematic in
  let run := AiRouter.post_schematic env Sample.schematic_request Sample.world0 in
  gemini_text env 0 (AiRouter.schematicPrompt "a windmill") = Ok Sample.prose /\
  JSON_parse env Sample.prose = Throw (SyntaxError "Unexpected token") /\
  fst run = Ok (schematic_failed Sample.disk_error) /\
  (forall r, fst run = Ok r -> get (body r) "ok" = JBool false) /\
  fst run <> Ok (schematic_ok (degraded (SyntaxError "Unexpected token") Sample.prose)).
Proof.
  intros env run. split; [reflexivity |]. split; [reflexivity |].
  assert (Hrun : fst run = Ok (schematic_failed Sample.disk_error))
    by (vm_compute; reflexivity).
  split; [exact Hrun |]. rewrite Hrun. split.
  - intros r [= <-]. reflexivity.
  - discriminate.
Qed.

(** C4: when the answer of the blueprint model parses and its
    [stress.machines] is truthy, the blueprint that the route returns has
    [stressEstimate = estimateStress(machines, baseStress || 256)] and is
    otherwise the parsed object; with machines 4 and base stress 256 that
    is [estimateStress(4, 256)].  When [stress.machines] is absent or
    falsy the returned blueprint is the parsed value, nothing added. *)
Theorem stress_estimate_added env (req_body : jsval) (w : World)
    (instr text : string) (parsed : jsval) :
  AiRouter.body_field req_body "instructions" = JStr instr -> instr <> "" ->
  gemini_text env (tick w) (AiRouter.schematicPrompt instr) = Ok text ->
  JSON_parse env text = Ok parsed ->
  let machines := get (get parsed "stress") "machines" in
  let baseStress := get (get parsed "stress") "baseStress" in
  exists r w',
    AiRouter.post_schematic env req_body w = (Ok r, w') /\
    (truthy machines = true -> status r = 200 ->
     exists blueprint,
       r = schematic_ok blueprint /\
       get blueprint "stressEstimate" =
         estimateStress env machines
           (if truthy baseStress then baseStress else JNum 256%float) /\
       forall k, k <> "stressEstimate" -> get blueprint k = get parsed k) /\
    (machines = JNum 4%float -> baseStress = JNum 256%float -> status r = 200 ->
     exists blueprint,
       r = schematic_ok blueprint /\
       get blueprint "stressEstimate" =
         estimateStress env (JNum 4%float) (JNum 256%float)) /\
    (truthy machines = false -> status r = 200 -> r = schematic_ok parsed) /\
    (truthy (AiRouter.body_field req_body "projectName") = false -> status r = 200).
Proof.
  intros Hinstr Hne Htext Hparse machines baseStress.
  pose proof (post_schematic_split env req_body w instr Hinstr Hne) as Hsplit.
  cbv zeta in Hsplit. rewrite Htext in Hsplit.
  assert (Hbp : AiRouter.parsedBlueprint env text = parsed)
    by (unfold AiRouter.parsedBlueprint; now rewrite Hparse).
  rewrite Hbp in Hsplit.
  destruct (withStressEstimate_cases env parsed) as [Hfalsy Htruthy].
  fold machines in Hfalsy, Htruthy. fold baseStress in Htruthy.
  assert (Hgood :
    let r := schematic_ok (AiRouter.withStressEstimate env parsed) in
    (truthy machines = true -> status r = 200 ->
     exists blueprint,
       r = schematic_ok blueprint /\
       get blueprint "stressEstimate" =
         estimateStress env machines
           (if truthy baseStress then baseStress else JNum 256%float) /\
       forall k, k <> "stressEstimate" -> get blueprint k = get parsed k) /\
    (machines = JNum 4%float -> baseStress = JNum 256%float -> status r = 200 ->
     exists blueprint,
       r = schematic_ok blueprint /\
       get blueprint "stressEstimate" =
         estimateStress env (JNum 4%float) (JNum 256%float)) /\
    (truthy machines = false -> status r = 200 -> r = schematic_ok parsed)).
  { intros r. split; [| split].
    - intros Htrue _. eexists. split; [reflexivity |]. exact (Htruthy Htrue).
    - intros Hm Hb _. eexists. split; [reflexivity |].
      assert (Htrue : truthy machines = true) by (rewrite Hm; reflexivity).
      destruct (Htruthy Htrue) as [Hest _]. rewrite Hest, Hm, Hb. reflexivity.
    - intros Hfalse _. unfold r. now rewrite (Hfalsy Hfalse). }
  cbv zeta in Hgood. destruct Hgood as (G1 & G2 & G3).
  destruct (truthy (AiRouter.body_field req_body "projectName")).
  - case_run Hsplit.
    + do 2 eexists. split; [exact Hsplit |]. repeat split; auto; discriminate.
    + do 2 eexists. split; [exact Hsplit |].
      repeat split; try discriminate; intros; discriminate.
  - do 2 eexists. split; [exact Hsplit |]. repeat split; auto.
Qed.

Lemma stress_estimate_added_witness :
  let env := Sample.env_with Sample.groq_down (Sample.gemini_says Sample.blueprint_text)
               Sample.no_fault in
  JSON_parse env Sample.blueprint_text = Ok Sample.blueprint_value /\
  get (get Sample.blueprint_value "stress") "machines" = JNum 4%float /\
  get (get Sample.blueprint_value "stress") "baseStress" = JNum 256%float /\
  exists r w',
    AiRouter.post_schematic env Sample.plain_schematic_request Sample.world0 = (Ok r, w') /\
    status r = 200 /\
    get (get (body r) "schematic") "stressEstimate" =
      Sample.estimateStress (JNum 4%float) (JNum 256%float) /\
    get (get (body r) "schematic") "name" = JStr "mill".
Proof.
  intros env. split; [reflexivity |]. split; [reflexivity |]. split; [reflexivity |].
  destruct (stress_estimate_added env Sample.plain_schematic_request Sample.world0
              "a windmill" Sample.blueprint_text Sample.blueprint_value)
    as (r & w' & Hrun & Htruthy & Hfour & _ & Hstatus).
  - reflexivity.
  - discriminate.
  - reflexivity.
  - reflexivity.
  - exists r, w'. split; [exact Hrun |].
    assert (H200 : status r = 200) by (apply Hstatus; reflexivity).
    split; [exact H200 |].
    destruct (Htruthy eq_refl H200) as (blueprint & -> & Hest & Hrest).
    split; [exact Hest |]. cbn [body schematic_ok get lookup_prop String.eqb Ascii.eqb Bool.eqb].
    rewrite Hrest by discriminate. reflexivity.
Defined.

Example sample_stress_estimate :
  Sample.estimateStress (JNum 4%float) (JNum 256%float) = JNum 1024%float.
Proof. reflexivity. Qed.

(** ** The routes raise nothing *)

Lemma try_catch_total {A} (m : M A) (h : JsError -> M A) w :
  (forall e w0, exists a w', h e w0 = (Ok a, w')) ->
  exists a w', try_catch m h w = (Ok a, w').
Proof.
  intros Hh. unfold try_catch. destruct (m w) as [[a | e] w0]; [eauto | apply Hh].
Qed.

Lemma routes_never_throw env req_body w :
  (exists r w', AiRouter.post_chat env req_body w = (Ok r, w')) /\
  (exists r w', AiRouter.post_style env req_body w = (Ok r, w')) /\
  (exists r w', AiRouter.post_schematic env req_body w = (Ok r, w')) /\
  (exists r w', AiRouter.get_style env w = (Ok r, w')).
Proof.
  repeat split; apply try_catch_total; intros e w0; do 2 eexists; reflexivity.
Qed.

(** The scenario of the specification: the classification call fails, the
    keyword heuristic finds factory, and the chat call answers. *)
Example sample_factory_request :
  let env := Sample.env_with (Sample.groq_recovers "Start with a water wheel.")
               Sample.gemini_down Sample.no_fault in
  fst (AiRouter.post_chat env Sample.factory_request Sample.world0) =
    Ok (chat_ok (JStr "create") "Start with a water wheel.").
Proof. vm_compute. reflexivity. Qed.

(** * Further properties *)

(** ** Objects *)

Lemma lookup_set_prop k k0 x o :
  lookup_prop k (set_prop k0 x o) = if String.eqb k0 k then x else lookup_prop k o.
Proof.
  destruct (String.eqb_spec k0 k) as [-> | Hne].
  - apply lookup_set_prop_eq.
  - apply lookup_set_prop_ne. congruence.
Qed.


Lemma has_prop_app k a b : has_prop k (a ++ b)%list = has_prop k a || has_prop k b.
Proof. unfold has_prop. apply existsb_app. Qed.

Lemma has_prop_rev k o : has_prop k (rev o) = has_prop k o.
Proof.
  induction o as [| [k1 v] o IH]; [reflexivity |].
  cbn [rev]. rewrite has_prop_app, IH. unfold has_prop. cbn -[String.eqb].
  rewrite orb_false_r. apply orb_comm.
Qed.

Lemma lookup_prop_app k a b :
  lookup_prop k (a ++ b)%list = if has_prop k a then lookup_prop k a else lookup_prop k b.
Proof.
  unfold has_prop. induction a as [| [k1 v] a IH]; [reflexivity |].
  cbn -[String.eqb]. destruct (String.eqb k1 k); [reflexivity | exact IH].
Qed.

(** [{ ...a, ...b }]: a key of [b] has the value of its last occurrence in
    [b], any other key its value in [a]. *)
Lemma spread_lookup k a b :
  lookup_prop k (spread a b) =
    if has_prop k b then lookup_prop k (rev b) else lookup_prop k a.
Proof.
  unfold spread. revert a. induction b as [| [k0 v0] b IH]; intros a; [reflexivity |].
  cbn [fold_left fst snd rev]. rewrite IH, lookup_set_prop, lookup_prop_app, has_prop_rev.
  unfold has_prop at 2. cbn -[String.eqb]. fold (has_prop k b).
  destruct (has_prop k b), (String.eqb k0 k); reflexivity.
Qed.


(** ** The style profile store, further *)

Lemma saveUserProfile_run env style w :
  let merged := spread UserProfile.defaultProfile style in
  UserProfile.saveUserProfile env style w =
    match fs_write_fault env (tick w) (JSON_stringify env (JObj merged)) with
    | None =>
        (Ok (JObj merged), set_profile_file (Some (JSON_stringify env (JObj merged))) w)
    | Some e => (Throw e, w)
    end.
Proof.
  intros merged. unfold UserProfile.saveUserProfile, bind, UserProfile.writeFileSync.
  fold merged.
  destruct (fs_write_fault env (tick w) (JSON_stringify env (JObj merged))); reflexivity.
Qed.


(** X2: reading back.  After [saveUserProfile], and after the first
    [loadUserProfile] on a missing file, [loadUserProfile] returns what
    [JSON.parse] reads from the text just written; it writes nothing more
    and logs nothing.  When the write fails its error is raised and the
    second step does not run. *)
Theorem profile_read_back env (style : obj) (w : World) (v : jsval) :
  let saved := JSON_stringify env (JObj (spread UserProfile.defaultProfile style)) in
  let defaults := JSON_stringify env (JObj UserProfile.defaultProfile) in
  (JSON_parse env saved = Ok v ->
   (UserProfile.saveUserProfile env style ;; UserProfile.loadUserProfile env) w =
     match fs_write_fault env (tick w) saved with
     | None => (Ok v, set_profile_file (Some saved) w)
     | Some e => (Throw e, w)
     end) /\
  (profile_file w = None ->
   JSON_parse env defaults = Ok v ->
   (UserProfile.loadUserProfile env ;; UserProfile.loadUserProfile env) w =
     match fs_write_fault env (tick w) defaults with
     | None => (Ok v, set_profile_file (Some defaults) w)
     | Some e => (Throw e, w)
     end).
Proof.
  intros saved defaults. split.
  - intros Hparse. unfold bind. rewrite saveUserProfile_run. cbv zeta. fold saved.
    destruct (fs_write_fault env (tick w) saved); [reflexivity |].
    rewrite (loadUserProfile_present env (set_profile_file (Some saved) w) saved eq_refl),
      Hparse. reflexivity.
  - intros Hnone Hparse. unfold bind.
    rewrite (loadUserProfile_absent env w Hnone). fold defaults.
    destruct (fs_write_fault env (tick w) defaults); [reflexivity |].
    rewrite (loadUserProfile_present env (set_profile_file (Some defaults) w) defaults eq_refl),
      Hparse. reflexivity.
Qed.

Lemma profile_read_back_witness :
  JSON_parse MoreSamples.env_down
    (JSON_stringify MoreSamples.env_down (JObj (spread UserProfile.defaultProfile [])))
  = Ok (JObj UserProfile.defaultProfile) /\
  profile_file Sample.world0 = None /\
  (UserProfile.saveUserProfile MoreSamples.env_down [] ;;
   UserProfile.loadUserProfile MoreSamples.env_down) Sample.world0 =
    (Ok (JObj UserProfile.defaultProfile),
     set_profile_file (Some MoreSamples.profile_text) Sample.world0) /\
  (UserProfile.loadUserProfile MoreSamples.env_down ;;
   UserProfile.loadUserProfile MoreSamples.env_down) Sample.world0 =
    (Ok (JObj UserProfile.defaultProfile),
     set_profile_file (Some MoreSamples.profile_text) Sample.world0).
Proof.
  assert (Hcodec : JSON_parse MoreSamples.env_down
            (JSON_stringify MoreSamples.env_down (JObj (spread UserProfile.defaultProfile [])))
          = Ok (JObj UserProfile.defaultProfile)) by (vm_compute; reflexivity).
  split; [exact Hcodec |]. split; [reflexivity |].
  destruct (profile_read_back MoreSamples.env_down [] Sample.world0
              (JObj UserProfile.defaultProfile)) as [Hsave Hload].
  split; [exact (Hsave Hcodec) | exact (Hload eq_refl Hcodec)].
Defined.

(** ** Template literals and [trim] *)

Lemma append_nil_l (b : string) : "" +:+ b = b.
Proof. reflexivity. Qed.

Lemma append_cons (c : ascii) (a b : string) : String c a +:+ b = String c (a +:+ b).
Proof. reflexivity. Qed.

Lemma append_nonempty_r (a b : string) : b <> "" -> a +:+ b <> "".
Proof.
  intros Hb. destruct a; [now rewrite append_nil_l | rewrite append_cons; discriminate].
Qed.

Lemma trimEnd_app (a b : string) :
  Str.trimEnd (a +:+ b) =
    match Str.trimEnd b with
    | EmptyString => Str.trimEnd a
    | String c r => a +:+ String c r
    end.
Proof.
  induction a as [| x a IH].
  - rewrite append_nil_l. now destruct (Str.trimEnd b).
  - rewrite append_cons. cbn [Str.trimEnd]. rewrite IH.
    destruct (Str.trimEnd b) as [| c r]; [reflexivity |].
    rewrite append_cons. destruct a; reflexivity.
Qed.

Lemma is_space_dec (c : ascii) : Str.is_space c = true \/ Str.is_space c = false.
Proof. destruct (Str.is_space c); auto. Qed.

Lemma trimEnd_idempotent (s : string) : Str.trimEnd (Str.trimEnd s) = Str.trimEnd s.
Proof.
  induction s as [| c s IH]; [reflexivity |].
  cbn [Str.trimEnd]. destruct (Str.trimEnd s) as [| d r] eqn:Hs.
  - destruct (is_space_dec c) as [Hc | Hc]; rewrite Hc; [reflexivity |].
    cbn [Str.trimEnd]. now rewrite Hc.
  - cbn [Str.trimEnd] in *. now rewrite IH.
Qed.

Lemma ends_well_app (a b : string) : ends_well b -> ends_well (a +:+ b).
Proof.
  intros [Htrim Hne]. split; [| now apply append_nonempty_r].
  rewrite trimEnd_app, Htrim. destruct b; [congruence | reflexivity].
Qed.

Lemma ends_well_cons (c : ascii) (s : string) : ends_well s -> ends_well (String c s).
Proof. intros H. apply (ends_well_app (String c "") s H). Qed.

Lemma trimStart_app (a b : string) : starts_well a -> Str.trimStart (a +:+ b) = a +:+ b.
Proof.
  intros [Htrim Hne]. destruct a as [| c a]; [congruence |].
  rewrite append_cons. cbn [Str.trimStart] in *.
  destruct (Str.is_space c); [| reflexivity].
  exfalso. assert (Hlen : String.length (Str.trimStart a) <= String.length a).
  { clear. induction a as [| d a IH]; cbn; [lia |]. destruct (Str.is_space d); cbn; lia. }
  rewrite Htrim in Hlen. cbn in Hlen. lia.
Qed.

Lemma lines_snoc (l : list string) (x : string) :
  l <> [] -> Str.lines (l ++ [x])%list = Str.lines l +:+ Str.nl +:+ x.
Proof.
  unfold Str.lines, Str.join. induction l as [| a l IH]; [congruence |]. intros _.
  destruct l as [| b l].
  - reflexivity.
  - change (String.concat Str.nl ((a :: b :: l) ++ [x])%list)
      with (a +:+ Str.nl +:+ String.concat Str.nl ((b :: l) ++ [x])%list).
    rewrite IH by discriminate.
    change (String.concat Str.nl (a :: b :: l))
      with (a +:+ Str.nl +:+ String.concat Str.nl (b :: l)).
    generalize (String.concat Str.nl (b :: l)). intros rest.
    induction a as [| c a IHa]; [reflexivity |].
    rewrite !append_cons. now rewrite IHa.
Qed.

(** A template literal that opens and closes with a line feed, trimmed:
    the first and the last line feed go, and white space at the end. *)
Lemma trim_template (l : list string) :
  starts_well (Str.lines l) ->
  Str.trim (Str.lines ("" :: l ++ [""])%list) = Str.trimEnd (Str.lines l).
Proof.
  intros Hstart. assert (Hl : l <> []) by (intros ->; now destruct Hstart).
  unfold Str.trim.
  replace (Str.lines ("" :: l ++ [""])%list) with (Str.nl +:+ (Str.lines l +:+ Str.nl)).
  - change (Str.trimStart (Str.nl +:+ (Str.lines l +:+ Str.nl)))
      with (Str.trimStart (Str.lines l +:+ Str.nl)).
    rewrite (trimStart_app _ _ Hstart), trimEnd_app. reflexivity.
  - pose proof (lines_snoc l "" Hl) as Hsnoc.
    destruct l as [| a l]; [congruence |]. symmetry.
    change (Str.lines ("" :: (a :: l) ++ [""])%list)
      with (Str.nl +:+ Str.lines ((a :: l) ++ [""])%list).
    rewrite Hsnoc. reflexivity.
Qed.

(** [ends_well_tac]: a text that ends in a literal without white space at
    its end. *)
Ltac ends_well_tac :=
  repeat first
    [ solve [split; [reflexivity | discriminate]]
    | apply ends_well_app
    | apply ends_well_cons ].

Lemma lookup_prop_absent k o : has_prop k o = false -> lookup_prop k o = JUndefined.
Proof.
  unfold has_prop. induction o as [| [k1 v] o IH]; [reflexivity |].
  cbn -[String.eqb]. destruct (String.eqb k1 k); [discriminate | exact IH].
Qed.

(** X3: the style block.  [styleInstruction] puts the texts of the four
    fields, as they are, on four lines between the heading and the closing
    sentence: the [trim] takes away the first and the last line feed of the
    template and nothing of a value.  A string field is its own text, and a
    field the profile lacks reads undefined. *)
Theorem styleInstruction_block env :
  (forall profile tone detail emojis formatting,
     AiRouter.field_text env profile "tone" = Ok tone ->
     AiRouter.field_text env profile "detail" = Ok detail ->
     AiRouter.field_text env profile "emojis" = Ok emojis ->
     AiRouter.field_text env profile "formatting" = Ok formatting ->
     AiRouter.styleInstruction env profile = Ok (style_block tone detail emojis formatting)) /\
  (forall o k s, lookup_prop k o = JStr s -> AiRouter.field_text env (JObj o) k = Ok s) /\
  (forall o k, has_prop k o = false -> AiRouter.field_text env (JObj o) k = Ok "undefined").
Proof.
  split; [| split].
  - intros profile t d e f Ht Hd He Hf.
    unfold AiRouter.styleInstruction. rewrite Ht, Hd, He, Hf. cbn [rbind]. f_equal.
    unfold style_block.
    match goal with
    | |- Str.trim (Str.lines ?big) = Str.lines ?l =>
        change big with ("" :: l ++ [""])%list; rewrite (trim_template l)
    end.
    + unfold Str.lines, Str.join. cbn [String.concat]. ends_well_tac.
    + split; [reflexivity | vm_compute; discriminate].
  - intros o k s Hk. unfold AiRouter.field_text. cbn. now rewrite Hk.
  - intros o k Hk. unfold AiRouter.field_text. cbn.
    now rewrite (lookup_prop_absent k o Hk).
Qed.

Lemma styleInstruction_block_witness :
  AiRouter.field_text Sample.env_down (JObj UserProfile.defaultProfile) "tone" = Ok "friendly" /\
  AiRouter.styleInstruction Sample.env_down (JObj UserProfile.defaultProfile) =
    Ok (Str.lines
          [ "User style settings:"; "- tone: friendly"; "- detail: medium";
            "- emojis: some"; "- formatting: markdown"; "";
            "Respect these settings while answering." ]).
Proof.
  split; [reflexivity |].
  apply (proj1 (styleInstruction_block Sample.env_down)); reflexivity.
Defined.

Lemma schematicPrompt_shape (instr : string) :
  AiRouter.schematicPrompt instr =
    Str.trimEnd ((AiRouter.schematicPrompt "" +:+ " ") +:+ instr).
Proof.
  unfold AiRouter.schematicPrompt at 1.
  match goal with
  | |- Str.trim (Str.lines ("" :: ?rest)) = _ =>
      let l := constr:(removelast rest) in
      let l := eval cbv [removelast] in l in
      change (Str.lines ("" :: rest)) with (Str.lines ("" :: l ++ [""])%list);
      rewrite (trim_template l);
      [ replace (Str.lines l) with ((AiRouter.schematicPrompt "" +:+ " ") +:+ instr)
          by (vm_compute; reflexivity)
      | split; [reflexivity | vm_compute; discriminate] ]
  end.
  reflexivity.
Qed.

(** X4: the schematic prompt ends with the instructions, and the [trim]
    of the whole template cuts the white space at their end (white space at
    their start stays).  Instructions of white space alone leave the prompt
    of empty instructions, which ends after the colon. *)
Theorem schematicPrompt_trims_instructions (instr : string) :
  (Str.trimEnd instr <> "" ->
   AiRouter.schematicPrompt instr =
     AiRouter.schematicPrompt "" +:+ " " +:+ Str.trimEnd instr) /\
  (Str.trimEnd instr = "" -> AiRouter.schematicPrompt instr = AiRouter.schematicPrompt "") /\
  AiRouter.schematicPrompt (Str.trimEnd instr) = AiRouter.schematicPrompt instr /\
  (exists head, AiRouter.schematicPrompt "" = head +:+ "User instructions:").
Proof.
  assert (Hhead : Str.trimEnd (AiRouter.schematicPrompt "" +:+ " ") = AiRouter.schematicPrompt "")
    by (vm_compute; reflexivity).
  split; [| split; [| split]].
  - intros Hne. rewrite schematicPrompt_shape, trimEnd_app.
    destruct (Str.trimEnd instr) as [| c r]; [congruence |].
    vm_compute. reflexivity.
  - intros Hempty. now rewrite schematicPrompt_shape, trimEnd_app, Hempty.
  - rewrite (schematicPrompt_shape instr), (schematicPrompt_shape (Str.trimEnd instr)).
    rewrite !trimEnd_app, trimEnd_idempotent. reflexivity.
  - exists (String.substring 0 (String.length (AiRouter.schematicPrompt "") - 18)
              (AiRouter.schematicPrompt "")).
    vm_compute. reflexivity.
Qed.

Lemma schematicPrompt_trims_instructions_witness :
  Str.trimEnd "a windmill  " <> "" /\
  AiRouter.schematicPrompt "a windmill  " =
    AiRouter.schematicPrompt "" +:+ " a windmill".
Proof.
  assert (Hne : Str.trimEnd "a windmill  " <> "") by (vm_compute; discriminate).
  split; [exact Hne |].
  rewrite (proj1 (schematicPrompt_trims_instructions "a windmill  ") Hne).
  reflexivity.
Defined.

(** ** The chat route, further *)

Lemma valid_message_dec (req_body : jsval) :
  valid_message req_body \/
  (forall s, AiRouter.body_field req_body "message" = JStr s -> s = "").
Proof.
  unfold valid_message.
  destruct (AiRouter.body_field req_body "message") as [| | b | f | s | items | o];
    try (right; intros s0 H; discriminate).
  destruct s as [| c s].
  - right. now intros s0 [= <-].
  - left. eexists. split; [reflexivity | discriminate].
Qed.

Lemma invalid_message_rejected env req_body w :
  (forall s, AiRouter.body_field req_body "message" = JStr s -> s = "") ->
  AiRouter.post_chat env req_body w =
    (Ok (mkResponse 400
           (JObj [("ok", JBool false); ("error", JStr "Missing 'message' string")])), w).
Proof.
  intros Hbad. unfold AiRouter.post_chat, try_catch.
  destruct (AiRouter.body_field req_body "message") as [| | b | f | s | items | o];
    try reflexivity; try (cbn; now rewrite orb_true_r).
  rewrite (Hbad s eq_refl). reflexivity.
Qed.

Lemma post_chat_valid_status env req_body w :
  valid_message req_body ->
  exists r w',
    AiRouter.post_chat env req_body w = (Ok r, w') /\ (status r = 200 \/ status r = 500).
Proof.
  intros (msg & Hmsg & Hne).
  rewrite (post_chat_split env req_body w msg Hmsg Hne). cbv zeta.
  destruct (AiRouter.chatMessages env msg _ _ w) as [[[chosen msgs] | e] w1]; [| eauto].
  destruct (groq_create env (tick w1) msgs) as [completion | e]; [| eauto].
  destruct (truthy (AiRouter.body_field req_body "projectName")); [| eauto].
  match goal with
  | |- context [match ?run with _ => _ end] => destruct run as [[[] | e] w3]
  end; eauto.
Qed.

Lemma invalid_instructions_rejected env req_body w :
  (forall s, AiRouter.body_field req_body "instructions" = JStr s -> s = "") ->
  AiRouter.post_schematic env req_body w =
    (Ok (mkResponse 400
           (JObj [("ok", JBool false); ("error", JStr "Missing 'instructions' string")])), w).
Proof.
  intros Hbad. unfold AiRouter.post_schematic, try_catch.
  destruct (AiRouter.body_field req_body "instructions") as [| | b | f | s | items | o];
    try reflexivity; try (cbn; now rewrite orb_true_r).
  rewrite (Hbad s eq_refl). reflexivity.
Qed.

Lemma valid_instructions_dec (req_body : jsval) :
  valid_instructions req_body \/
  (forall s, AiRouter.body_field req_body "instructions" = JStr s -> s = "").
Proof.
  unfold valid_instructions.
  destruct (AiRouter.body_field req_body "instructions") as [| | b | f | s | items | o];
    try (right; intros s0 H; discriminate).
  destruct s as [| c s].
  - right. now intros s0 [= <-].
  - left. eexists. split; [reflexivity | discriminate].
Qed.

Lemma post_schematic_valid_status env req_body w :
  valid_instructions req_body ->
  exists r w',
    AiRouter.post_schematic env req_body w = (Ok r, w') /\ (status r = 200 \/ status r = 500).
Proof.
  intros (instr & Hinstr & Hne).
  rewrite (post_schematic_split env req_body w instr Hinstr Hne). cbv zeta.
  destruct (gemini_text env (tick w) _) as [text | e]; [| eauto].
  destruct (truthy (AiRouter.body_field req_body "projectName")); [| eauto].
  match goal with
  | |- context [match ?run with _ => _ end] => destruct run as [[[] | e] w3]
  end; eauto.
Qed.

(** X5: both routes answer with status 200, 400 or 500 and raise nothing.
    The chat route answers 400 exactly when [message] is not a non-empty
    string, an empty string included, and the schematic route exactly when
    [instructions] is not one; a 400 answer leaves the world untouched. *)
Theorem routes_status env (req_body : jsval) (w : World) :
  (exists r w',
     AiRouter.post_chat env req_body w = (Ok r, w') /\
     (status r = 200 \/ status r = 400 \/ status r = 500) /\
     (status r = 400 <-> ~ valid_message req_body) /\
     (status r = 400 -> w' = w)) /\
  (exists r w',
     AiRouter.post_schematic env req_body w = (Ok r, w') /\
     (status r = 200 \/ status r = 400 \/ status r = 500) /\
     (status r = 400 <-> ~ valid_instructions req_body) /\
     (status r = 400 -> w' = w)).
Proof.
  split.
  - destruct (valid_message_dec req_body) as [Hvalid | Hbad].
    + destruct (post_chat_valid_status env req_body w Hvalid) as (r & w' & Hrun & Hst).
      exists r, w'. split; [exact Hrun |].
      split; [tauto |]. split; [| intros H400; destruct Hst; congruence].
      split; [intros H400; destruct Hst; congruence | tauto].
    + rewrite (invalid_message_rejected env req_body w Hbad).
      do 2 eexists. split; [reflexivity |]. cbn [status].
      split; [tauto |]. split; [| reflexivity].
      split; [| reflexivity]. intros _ (s & Hs & Hne). now apply Hne, Hbad.
  - destruct (valid_instructions_dec req_body) as [Hvalid | Hbad].
    + destruct (post_schematic_valid_status env req_body w Hvalid) as (r & w' & Hrun & Hst).
      exists r, w'. split; [exact Hrun |].
      split; [tauto |]. split; [| intros H400; destruct Hst; congruence].
      split; [intros H400; destruct Hst; congruence | tauto].
    + rewrite (invalid_instructions_rejected env req_body w Hbad).
      do 2 eexists. split; [reflexivity |]. cbn [status].
      split; [tauto |]. split; [| reflexivity].
      split; [| reflexivity]. intros _ (s & Hs & Hne). now apply Hne, Hbad.
Qed.

(** ** The automatic mode, further *)

Lemma keywordMode_range (message : string) :
  In (AiRouter.keywordMode message) ["create"; "pro"; "general"].
Proof.
  unfold AiRouter.keywordMode.
  destruct (_ || _ || _); [simpl; tauto |].
  destruct (_ || _ || _); simpl; tauto.
Qed.

Lemma known_mode_range (v : jsval) :
  known_mode v = true -> exists m, v = JStr m /\ In m ["create"; "pro"; "general"].
Proof.
  unfold known_mode. rewrite !orb_true_iff.
  intros [[H | H] | H]; apply is_str_true in H; subst; eexists;
    (split; [reflexivity | simpl; tauto]).
Qed.

Lemma known_mode_in (m : string) :
  In m ["create"; "pro"; "general"] -> known_mode (JStr m) = true.
Proof. simpl. intros [<- | [<- | [<- | []]]]; reflexivity. Qed.

(** X6: [autoMode] always returns one of create, pro and general and
    raises nothing, whatever the router model does; it calls the chat model
    exactly once, with the router prompt and the message, and leaves the
    profile file and the stores as they are. *)
Theorem autoMode_returns_a_mode env (message : string) (w : World) :
  exists m w',
    AiRouter.autoMode env message w = (Ok (JStr m), w') /\
    In m ["create"; "pro"; "general"] /\
    trace w' = (trace w ++ [CallGroq (router_messages env message)])%list /\
    profile_file w' = profile_file w /\
    projects w' = projects w /\
    blueprint_files w' = blueprint_files w.
Proof.
  rewrite autoMode_run. cbv zeta. fold (router_messages env message).
  pose proof (keywordMode_range message) as Hkw.
  destruct (groq_create env (tick w) (router_messages env message)) as [c | e];
    [| do 2 eexists; repeat split; try reflexivity; exact Hkw].
  destruct (JSON_parse env (AiRouter.content_or_placeholder c)) as [parsed | e];
    [| do 2 eexists; repeat split; try reflexivity; exact Hkw].
  destruct (getProp parsed "mode") as [mode | e];
    [| do 2 eexists; repeat split; try reflexivity; exact Hkw].
  destruct (known_mode mode) eqn:Hknown.
  - destruct (known_mode_range mode Hknown) as (m & -> & Hin).
    do 2 eexists; repeat split; try reflexivity; exact Hin.
  - do 2 eexists; repeat split; try reflexivity; exact Hkw.
Qed.

(** X7: the verdict of the router model wins over the keywords: when its
    answer parses and carries one of the three modes, [autoMode] returns
    that mode and logs nothing.  An answer with any other mode value falls
    back on the keywords without a warning; only an exception (the call,
    the parse, the read of [mode] on null) logs the one warning. *)
Theorem autoMode_model_verdict env (message : string) (w : World)
    (c : Completion) (parsed mode : jsval) :
  groq_create env (tick w) (router_messages env message) = Ok c ->
  JSON_parse env (AiRouter.content_or_placeholder c) = Ok parsed ->
  let asked := log_call (CallGroq (router_messages env message)) w in
  (getProp parsed "mode" = Ok mode ->
   (forall m, mode = JStr m -> In m ["create"; "pro"; "general"] ->
      AiRouter.autoMode env message w = (Ok (JStr m), asked)) /\
   (known_mode mode = false ->
      AiRouter.autoMode env message w = (Ok (JStr (AiRouter.keywordMode message)), asked))) /\
  (forall e, getProp parsed "mode" = Throw e ->
     AiRouter.autoMode env message w =
       (Ok (JStr (AiRouter.keywordMode message)), log_console (warned e) asked)).
Proof.
  intros Hc Hp asked. split.
  - intros Hmode. split.
    + intros m -> Hin. rewrite autoMode_run. cbv zeta.
      fold (router_messages env message). rewrite Hc, Hp, Hmode.
      now rewrite (known_mode_in m Hin).
    + intros Hunknown. rewrite autoMode_run. cbv zeta.
      fold (router_messages env message). now rewrite Hc, Hp, Hmode, Hunknown.
  - intros e He. rewrite autoMode_run. cbv zeta.
    fold (router_messages env message). now rewrite Hc, Hp, He.
Qed.

Lemma autoMode_model_verdict_witness :
  let env := Sample.env_with MoreSamples.groq_router Sample.gemini_down Sample.no_fault in
  AiRouter.keywordMode "build a factory" = "create" /\
  AiRouter.autoMode env "build a factory" Sample.world0 =
    (Ok (JStr "pro"),
     log_call (CallGroq (router_messages env "build a factory")) Sample.world0).
Proof.
  intros env. split; [reflexivity |].
  destruct (autoMode_model_verdict env "build a factory" Sample.world0
              (Sample.completion_of (Some Sample.mode_text))
              (JObj [("mode", JStr "pro")]) (JStr "pro") eq_refl eq_refl)
    as [Hmode _].
  destruct (Hmode eq_refl) as [Hknown _].
  apply (Hknown "pro" eq_refl). simpl. tauto.
Defined.

(** ** Frames of the steps of the chat route *)

Lemma adds_calls_refl P w : adds_calls P w w.
Proof. exists []. split; [now rewrite app_nil_r | constructor]. Qed.

Lemma adds_calls_trans P w1 w2 w3 :
  adds_calls P w1 w2 -> adds_calls P w2 w3 -> adds_calls P w1 w3.
Proof.
  intros (c1 & Ht1 & Hc1) (c2 & Ht2 & Hc2). exists (c1 ++ c2)%list. split.
  - rewrite Ht2, Ht1. now rewrite <- app_assoc.
  - apply Forall_app. split; assumption.
Qed.

Lemma adds_calls_one (P : Call -> Prop) c w : P c -> adds_calls P w (log_call c w).
Proof. intros Hc. exists [c]. split; [reflexivity | now constructor]. Qed.

Lemma adds_calls_same_trace P w w' : trace w' = trace w -> adds_calls P w w'.
Proof. intros Ht. exists []. split; [now rewrite app_nil_r | constructor]. Qed.

Lemma adds_calls_weaken (P Q : Call -> Prop) w w' :
  (forall c, P c -> Q c) -> adds_calls P w w' -> adds_calls Q w w'.
Proof.
  intros HPQ (calls & Ht & Hc). exists calls. split; [exact Ht |].
  eapply Forall_impl; eassumption.
Qed.

Lemma chosenMode_frame env message mode w r w' :
  AiRouter.chosenMode env message mode w = (r, w') ->
  profile_file w' = profile_file w /\ groq_only w w'.
Proof.
  unfold AiRouter.chosenMode. destruct (is_str mode "auto").
  - rewrite autoMode_run. cbv zeta.
    set (msgs := [AiRouter.system (AUTO_ROUTER_PROMPT env); AiRouter.user message]).
    assert (Hone : adds_calls is_groq_call w (log_call (CallGroq msgs) w))
      by (apply adds_calls_one; exact I).
    assert (Hwarn : forall e,
              adds_calls is_groq_call w (log_console (warned e) (log_call (CallGroq msgs) w)))
      by (intros e; exact Hone).
    destruct (groq_create env (tick w) msgs) as [c | e];
      [| intros [= <- <-]; repeat split; apply Hwarn].
    destruct (JSON_parse env (AiRouter.content_or_placeholder c)) as [parsed | e];
      [| intros [= <- <-]; repeat split; apply Hwarn].
    destruct (getProp parsed "mode") as [m | e];
      [| intros [= <- <-]; repeat split; apply Hwarn].
    destruct (known_mode m); intros [= <- <-]; repeat split; exact Hone.
  - intros [= <- <-]. repeat split. apply adds_calls_refl.
Qed.

Lemma historyText_frame env projectName w r w' :
  AiRouter.historyText env projectName w = (r, w') ->
  profile_file w' = profile_file w /\ projects w' = projects w /\
  blueprint_files w' = blueprint_files w /\ adds_calls is_store_call w w'.
Proof.
  unfold AiRouter.historyText. destruct (truthy projectName).
  - unfold bind at 1. unfold Memory.loadProject, bind, lift, Memory.store_op, gets.
    destruct (ToString env projectName) as [key | e];
      [| intros [= <- <-]; repeat split; apply adds_calls_refl].
    assert (Hone : adds_calls is_store_call w (log_call (CallLoadProject key) w))
      by (apply adds_calls_one; exact I).
    destruct (store_fault env (tick w) (CallLoadProject key));
      [intros [= <- <-]; repeat split; exact Hone |].
    cbn. destruct (projects w !! key) as [pr |];
      [| intros [= <- <-]; repeat split; exact Hone].
    destruct (conversation pr); intros [= <- <-]; repeat split; exact Hone.
  - intros [= <- <-]. repeat split. apply adds_calls_refl.
Qed.

Lemma historyText_no_project env projectName w :
  truthy projectName = false -> AiRouter.historyText env projectName w = (Ok "", w).
Proof. intros Hfalse. unfold AiRouter.historyText. now rewrite Hfalse. Qed.

Lemma appendConversation_frame env name r c w res w' :
  Memory.appendConversation env name r c w = (res, w') ->
  profile_file w' = profile_file w /\ blueprint_files w' = blueprint_files w /\
  adds_calls is_store_call w w'.
Proof.
  unfold Memory.appendConversation, bind, lift, gets, Memory.store_op, modify.
  destruct (ToString env name) as [key | e];
    [| intros [= <- <-]; repeat split; apply adds_calls_refl].
  assert (Hone : adds_calls is_store_call w (log_call (CallAppendConversation key r c) w))
    by (apply adds_calls_one; exact I).
  destruct (store_fault env (tick w) (CallAppendConversation key r c));
    intros [= <- <-]; repeat split; exact Hone.
Qed.

(** The chat route with an explicit mode, before the chat request. *)
Lemma chatMessages_explicit env message mode projectName w :
  is_str mode "auto" = false ->
  AiRouter.chatMessages env message mode projectName w =
    match UserProfile.loadUserProfile env w with
    | (Throw e, w0) => (Throw e, w0)
    | (Ok profile, w0) =>
        match AiRouter.styleInstruction env profile with
        | Throw e => (Throw e, w0)
        | Ok styleText =>
            match AiRouter.historyText env projectName w0 with
            | (Throw e, w1) => (Throw e, w1)
            | (Ok history, w1) =>
                (Ok (mode,
                     [AiRouter.system
                        (AiRouter.systemContent (AiRouter.basePromptForMode env mode)
                           styleText history);
                      AiRouter.user message]), w1)
            end
        end
    end.
Proof.
  intros Hmode. unfold AiRouter.chatMessages, bind, lift, ret.
  destruct (UserProfile.loadUserProfile env w) as [[profile | e] w0]; [| reflexivity].
  rewrite (chosenMode_not_auto env message mode w0 Hmode).
  destruct (AiRouter.styleInstruction env profile) as [styleText | e]; [| reflexivity].
  destruct (AiRouter.historyText env projectName w0) as [[history | e] w1]; reflexivity.
Qed.

(** X8: a profile file that holds the JSON document null is read without
    complaint, and then every valid chat request with an explicit mode
    fails: the answer is 500 AI error with the details of the TypeError of
    reading [tone] on null, and no call was made. *)
Theorem null_profile_fails_chat env (req_body : jsval) (w : World) (msg text : string) :
  AiRouter.body_field req_body "message" = JStr msg -> msg <> "" ->
  is_str (or_default_mode req_body) "auto" = false ->
  profile_file w = Some text ->
  JSON_parse env text = Ok JNull ->
  let err := TypeError "Cannot read properties of null (reading 'tone')" in
  UserProfile.loadUserProfile env w = (Ok JNull, w) /\
  AiRouter.post_chat env req_body w = (Ok (chat_failed err), chat_error_logged err w) /\
  body (chat_failed err) =
    JObj [ ("ok", JBool false); ("error", JStr "AI error");
           ("details", JStr "TypeError: Cannot read properties of null (reading 'tone')") ].
Proof.
  intros Hmsg Hne Hmode Hfile Hparse err.
  assert (Hload : UserProfile.loadUserProfile env w = (Ok JNull, w))
    by (rewrite (loadUserProfile_present env w text Hfile), Hparse; reflexivity).
  split; [exact Hload |]. split; [| reflexivity].
  rewrite (post_chat_split env req_body w msg Hmsg Hne). cbv zeta.
  rewrite (chatMessages_explicit env msg _ _ w Hmode), Hload. reflexivity.
Qed.

Lemma null_profile_fails_chat_witness :
  profile_file MoreSamples.world_null_profile = Some "null" /\
  JSON_parse MoreSamples.env_down "null" = Ok JNull /\
  AiRouter.post_chat MoreSamples.env_down Sample.plain_request MoreSamples.world_null_profile =
    (Ok (chat_failed (TypeError "Cannot read properties of null (reading 'tone')")),
     chat_error_logged (TypeError "Cannot read properties of null (reading 'tone')")
       MoreSamples.world_null_profile).
Proof.
  split; [reflexivity |]. split; [reflexivity |].
  apply (null_profile_fails_chat MoreSamples.env_down Sample.plain_request
           MoreSamples.world_null_profile "hi" "null"); try reflexivity; discriminate.
Defined.

Lemma store_call_not_groq c : is_store_call c -> ~ is_groq_call c.
Proof. destruct c; cbn; tauto. Qed.

Lemma two_appends_frame env name msg reply w res w' :
  (Memory.appendConversation env name "user" msg ;;
   Memory.appendConversation env name "assistant" reply) w = (res, w') ->
  profile_file w' = profile_file w /\ blueprint_files w' = blueprint_files w /\
  adds_calls is_store_call w w'.
Proof.
  unfold bind.
  destruct (Memory.appendConversation env name "user" msg w) as [[[] | e] w2] eqn:H1;
    apply appendConversation_frame in H1; destruct H1 as (Hp1 & Hb1 & Hc1).
  - intros H2. apply appendConversation_frame in H2. destruct H2 as (Hp2 & Hb2 & Hc2).
    split; [congruence |]. split; [congruence |]. eapply adds_calls_trans; eassumption.
  - intros [= <- <-]. auto.
Qed.

(** X9: a mode other than the string auto is trusted as it is: whatever
    value the body gives (an unknown string, a number, null), a successful
    answer echoes it, the chat model is called once, and the persona of the
    one chat request is the general prompt unless the mode is exactly
    create or pro. *)
Theorem explicit_mode_is_trusted env (req_body : jsval) (w : World)
    (msg : string) (mode : jsval) (r : Response) (w' : World) :
  AiRouter.body_field req_body "message" = JStr msg -> msg <> "" ->
  AiRouter.body_field req_body "mode" = mode ->
  mode <> JUndefined -> is_str mode "auto" = false ->
  AiRouter.post_chat env req_body w = (Ok r, w') ->
  status r = 200 ->
  (exists styleText history reply before after,
     r = chat_ok mode reply /\
     trace w' =
       (trace w ++ before ++
        [CallGroq [AiRouter.system
                     (AiRouter.systemContent (AiRouter.basePromptForMode env mode)
                        styleText history);
                   AiRouter.user msg]] ++ after)%list /\
     Forall is_store_call before /\ Forall is_store_call after) /\
  (mode <> JStr "create" -> mode <> JStr "pro" ->
   AiRouter.basePromptForMode env mode = GENERAL_MODE_PROMPT env).
Proof.
  intros Hmsg Hne Hfield Hdef Hmode Hrun H200. split.
  - assert (Hor : or_default_mode req_body = mode).
    { unfold or_default_mode, AiRouter.or_default. rewrite Hfield. now destruct mode. }
    rewrite (post_chat_split env req_body w msg Hmsg Hne) in Hrun. cbv zeta in Hrun.
    rewrite Hor, (chatMessages_explicit env msg mode _ w Hmode) in Hrun.
    destruct (UserProfile.loadUserProfile env w) as [[profile | e] w0] eqn:Hload;
      [| injection Hrun as <- <-; discriminate].
    apply loadUserProfile_frame in Hload. destruct Hload as (_ & Htrace0 & _).
    destruct (AiRouter.styleInstruction env profile) as [styleText | e];
      [| injection Hrun as <- <-; discriminate].
    destruct (AiRouter.historyText env _ w0) as [[history | e] w1] eqn:Hhist;
      [| injection Hrun as <- <-; discriminate].
    apply historyText_frame in Hhist. destruct Hhist as (_ & _ & _ & before & Hbefore & Hb).
    destruct (groq_create env (tick w1) _) as [completion | e];
      [| injection Hrun as <- <-; discriminate].
    exists styleText, history, (AiRouter.content_or_placeholder completion), before.
    destruct (truthy (AiRouter.body_field req_body "projectName")).
    + match type of Hrun with
      | match ?run with _ => _ end = _ => destruct run as [[[] | e] w3] eqn:Happ
      end; [| injection Hrun as <- <-; discriminate].
      injection Hrun as <- <-.
      apply two_appends_frame in Happ. destruct Happ as (_ & _ & after & Hafter & Ha).
      exists after. split; [reflexivity |]. split; [| auto].
      rewrite Hafter. cbn [trace log_call]. rewrite Hbefore, Htrace0.
      now rewrite <- !app_assoc.
    + injection Hrun as <- <-. exists []. split; [reflexivity |]. split; [| auto].
      cbn [trace log_call]. rewrite Hbefore, Htrace0. now rewrite <- !app_assoc.
  - intros Hc Hp. unfold AiRouter.basePromptForMode.
    destruct (is_str mode "create") eqn:E1; [apply is_str_true in E1; congruence |].
    destruct (is_str mode "pro") eqn:E2; [apply is_str_true in E2; congruence |].
    reflexivity.
Qed.

Lemma explicit_mode_is_trusted_witness :
  let env := Sample.env_with (Sample.groq_says (Some "Hello.")) Sample.gemini_down
               Sample.no_fault in
  AiRouter.body_field MoreSamples.odd_mode_request "mode" = JStr "Create" /\
  exists w',
    AiRouter.post_chat env MoreSamples.odd_mode_request Sample.world0 =
      (Ok (chat_ok (JStr "Create") "Hello."), w') /\
    AiRouter.basePromptForMode env (JStr "Create") = GENERAL_MODE_PROMPT env /\
    exists styleText history before after,
      trace w' =
        (trace Sample.world0 ++ before ++
         [CallGroq [AiRouter.system
                      (AiRouter.systemContent (GENERAL_MODE_PROMPT env) styleText history);
                    AiRouter.user "hi"]] ++ after)%list.
Proof.
  intros env. split; [reflexivity |].
  destruct (AiRouter.post_chat env MoreSamples.odd_mode_request Sample.world0)
    as [res w'] eqn:Hrun.
  assert (Hres : res = Ok (chat_ok (JStr "Create") "Hello."))
    by (change res with (fst (res, w')); rewrite <- Hrun; vm_compute; reflexivity).
  subst res.
  destruct (explicit_mode_is_trusted env MoreSamples.odd_mode_request Sample.world0
              "hi" (JStr "Create") (chat_ok (JStr "Create") "Hello.") w')
    as [Hecho Hgeneral]; try reflexivity; try discriminate; try exact Hrun.
  exists w'. split; [reflexivity |].
  assert (Hg : AiRouter.basePromptForMode env (JStr "Create") = GENERAL_MODE_PROMPT env)
    by (apply Hgeneral; discriminate).
  split; [exact Hg |].
  destruct Hecho as (styleText & history & reply & before & after & _ & Htrace & _).
  exists styleText, history, before, after. rewrite <- Hg. exact Htrace.
Defined.

Lemma groq_only_refl w : groq_only w w.
Proof. repeat split. apply adds_calls_refl. Qed.

Lemma groq_only_trans w1 w2 w3 : groq_only w1 w2 -> groq_only w2 w3 -> groq_only w1 w3.
Proof.
  intros (Hp1 & Hb1 & Hc1) (Hp2 & Hb2 & Hc2).
  split; [congruence |]. split; [congruence |]. eapply adds_calls_trans; eassumption.
Qed.

Lemma groq_only_console e w : groq_only w (log_console e w).
Proof. repeat split. now apply adds_calls_same_trace. Qed.

Lemma groq_only_call msgs w : groq_only w (log_call (CallGroq msgs) w).
Proof. repeat split. apply adds_calls_one. exact I. Qed.

Lemma chatMessages_no_project env message mode projectName w r w1 :
  truthy projectName = false ->
  AiRouter.chatMessages env message mode projectName w = (r, w1) -> groq_only w w1.
Proof.
  intros Hfalse. unfold AiRouter.chatMessages, bind, lift, ret.
  destruct (UserProfile.loadUserProfile env w) as [[profile | e] w0] eqn:Hload;
    apply loadUserProfile_frame in Hload; destruct Hload as (Hp0 & Ht0 & Hb0);
    assert (H0 : groq_only w w0)
      by (split; [exact Hp0 |]; split; [exact Hb0 |]; now apply adds_calls_same_trace);
    [| now intros [= <- <-]].
  destruct (AiRouter.chosenMode env message mode w0) as [[chosen | e] w2] eqn:Hmode;
    apply chosenMode_frame in Hmode; destruct Hmode as [_ Hmode];
    [| intros [= <- <-]; eapply groq_only_trans; eassumption].
  destruct (AiRouter.styleInstruction env profile) as [styleText | e];
    [| intros [= <- <-]; eapply groq_only_trans; eassumption].
  rewrite (historyText_no_project env projectName w2 Hfalse).
  intros [= <- <-]. eapply groq_only_trans; eassumption.
Qed.

(** X10: a chat request without a project name (absent, null, empty)
    never touches the project store: whatever the outcome, the projects and
    the blueprint files are as before and every call made went to the chat
    model. *)
Theorem chat_without_project env (req_body : jsval) (w : World)
    (res : Result Response) (w' : World) :
  truthy (AiRouter.body_field req_body "projectName") = false ->
  AiRouter.post_chat env req_body w = (res, w') ->
  projects w' = projects w /\
  blueprint_files w' = blueprint_files w /\
  exists calls, trace w' = (trace w ++ calls)%list /\ Forall is_groq_call calls.
Proof.
  intros Hfalse Hrun. change (groq_only w w').
  destruct (valid_message_dec req_body) as [(msg & Hmsg & Hne) | Hbad].
  - rewrite (post_chat_split env req_body w msg Hmsg Hne) in Hrun. cbv zeta in Hrun.
    rewrite Hfalse in Hrun.
    destruct (AiRouter.chatMessages env msg _ _ w) as [[[chosen msgs] | e] w1] eqn:Hpre;
      apply (chatMessages_no_project _ _ _ _ _ _ _ Hfalse) in Hpre.
    + destruct (groq_create env (tick w1) msgs) as [completion | e];
        injection Hrun as <- <-; eapply groq_only_trans; try exact Hpre.
      * apply groq_only_call.
      * eapply groq_only_trans; [apply groq_only_call | apply groq_only_console].
    + injection Hrun as <- <-. eapply groq_only_trans; [exact Hpre | apply groq_only_console].
  - rewrite (invalid_message_rejected env req_body w Hbad) in Hrun.
    injection Hrun as <- <-. apply groq_only_refl.
Qed.

Lemma chat_without_project_witness :
  let env := Sample.env_with (Sample.groq_recovers "Start with a water wheel.")
               Sample.gemini_down Sample.no_fault in
  truthy (AiRouter.body_field Sample.factory_request "projectName") = false /\
  projects (snd (AiRouter.post_chat env Sample.factory_request Sample.world0)) = ∅ /\
  exists calls,
    trace (snd (AiRouter.post_chat env Sample.factory_request Sample.world0)) = calls /\
    Forall is_groq_call calls.
Proof.
  intros env. split; [reflexivity |].
  destruct (AiRouter.post_chat env Sample.factory_request Sample.world0) as [res w'] eqn:Hrun.
  destruct (chat_without_project env Sample.factory_request Sample.world0 res w' eq_refl Hrun)
    as (Hp & _ & calls & Ht & Hc).
  split; [exact Hp |]. exists calls. split; [exact Ht | exact Hc].
Defined.

(** X11: when the store cannot read the project, a chat request with a
    project name and an explicit mode fails before the chat model is asked:
    the answer is 500 AI error with the store's error, the only call made
    is the read of the project, and no turn is appended. *)
Theorem history_failure_stops_chat env (req_body : jsval) (w : World)
    (msg p : string) (profile : jsval) (w0 : World) (styleText : string) (e : JsError) :
  AiRouter.body_field req_body "message" = JStr msg -> msg <> "" ->
  AiRouter.body_field req_body "projectName" = JStr p -> p <> "" ->
  is_str (or_default_mode req_body) "auto" = false ->
  UserProfile.loadUserProfile env w = (Ok profile, w0) ->
  AiRouter.styleInstruction env profile = Ok styleText ->
  store_fault env (tick w) (CallLoadProject p) = Some e ->
  exists w',
    AiRouter.post_chat env req_body w = (Ok (chat_failed e), w') /\
    trace w' = (trace w ++ [CallLoadProject p])%list /\
    projects w' = projects w.
Proof.
  intros Hmsg Hne Hproj Hp Hmode Hload Hstyle Hfault.
  rewrite (post_chat_split env req_body w msg Hmsg Hne). cbv zeta.
  rewrite (chatMessages_explicit env msg _ _ w Hmode), Hload, Hstyle, Hproj.
  pose proof (loadUserProfile_frame env w _ _ Hload) as (Hp0 & Ht0 & _).
  unfold AiRouter.historyText. rewrite (truthy_string p Hp). unfold bind at 1.
  rewrite loadProject_run.
  replace (tick w0) with (tick w) by (unfold tick; now rewrite Ht0).
  rewrite Hfault. eexists. split; [reflexivity |].
  cbn [trace projects chat_error_logged log_console log_call]. now rewrite Ht0, Hp0.
Qed.

Lemma history_failure_stops_chat_witness :
  let env := Sample.env_with (Sample.groq_says (Some "Hello.")) Sample.gemini_down
               MoreSamples.fault_on_load in
  store_fault env (tick Sample.world0) (CallLoadProject "p1") = Some Sample.disk_error /\
  exists w',
    AiRouter.post_chat env Sample.chat_request Sample.world0 =
      (Ok (chat_failed Sample.disk_error), w') /\
    trace w' = [CallLoadProject "p1"].
Proof.
  intros env. split; [reflexivity |].
  edestruct (history_failure_stops_chat env Sample.chat_request Sample.world0
               "how do I power it?" "p1") as (w' & Hrun & Htrace & _).
  - reflexivity.
  - discriminate.
  - reflexivity.
  - discriminate.
  - reflexivity.
  - lazy. reflexivity.
  - lazy. reflexivity.
  - reflexivity.
  - exists w'. split; [exact Hrun | exact Htrace].
Defined.




(** ** The history block, further *)

(** X13: the history block of any conversation shows its last turns, four
    at most and all of them when there are no more than four, in their
    order, one line each under the heading. *)
Theorem historyBlock_shows_last_turns (conv : list Turn) :
  exists older shown,
    conv = (older ++ shown)%list /\
    List.length shown = Nat.min 4 (List.length conv) /\
    (List.length conv <= 4 -> shown = conv) /\
    AiRouter.historyBlock conv =
      "Recent project messages:" +:+ Str.nl +:+
      Str.join Str.nl (map AiRouter.turn_line shown).
Proof.
  exists (take (List.length conv - 4) conv), (AiRouter.slice_last 4 conv).
  unfold AiRouter.slice_last. split; [now rewrite take_drop |].
  split; [rewrite length_drop; lia |].
  split; [| reflexivity].
  intros Hlen. replace (List.length conv - 4) with 0 by lia. reflexivity.
Qed.

(** ** The schematic route, further *)

Lemma saveSchematic_frame env name blueprint w res w' :
  Memory.saveSchematic env name blueprint w = (res, w') ->
  profile_file w' = profile_file w /\
  exists calls,
    trace w' = (trace w ++ calls)%list /\ Forall is_schematic_call calls /\
    List.length calls <= 1.
Proof.
  unfold Memory.saveSchematic, bind, lift, Memory.store_op, modify.
  destruct (ToString env name) as [key | e].
  - destruct (store_fault env (tick w) (CallSaveSchematic key blueprint));
      intros [= <- <-]; (split; [reflexivity |]);
      exists [CallSaveSchematic key blueprint]; repeat split; auto; constructor; auto; exact I.
  - intros [= <- <-]. split; [reflexivity |]. exists []. rewrite app_nil_r. auto.
Qed.

Lemma saveBlueprintFile_frame env name blueprint w res w' :
  Memory.saveBlueprintFile env name blueprint w = (res, w') ->
  profile_file w' = profile_file w /\
  exists calls,
    trace w' = (trace w ++ calls)%list /\ Forall is_schematic_call calls /\
    List.length calls <= 1.
Proof.
  unfold Memory.saveBlueprintFile, bind, lift, Memory.store_op, modify.
  destruct (ToString env name) as [key | e].
  - destruct (store_fault env (tick w) (CallSaveBlueprintFile key blueprint));
      intros [= <- <-]; (split; [reflexivity |]);
      exists [CallSaveBlueprintFile key blueprint]; repeat split; auto; constructor; auto;
      exact I.
  - intros [= <- <-]. split; [reflexivity |]. exists []. rewrite app_nil_r. auto.
Qed.

(** X14: the schematic route keeps to itself: whatever the request and the
    outcome, it leaves the profile file alone and makes at most three
    calls, each to the blueprint model or to one of the two sinks; it never
    asks the chat model and never reads or appends a conversation. *)
Theorem schematic_route_calls env (req_body : jsval) (w : World)
    (res : Result Response) (w' : World) :
  AiRouter.post_schematic env req_body w = (res, w') ->
  profile_file w' = profile_file w /\
  exists calls,
    trace w' = (trace w ++ calls)%list /\
    Forall is_schematic_call calls /\
    List.length calls <= 3.
Proof.
  intros Hrun.
  destruct (valid_instructions_dec req_body) as [(instr & Hinstr & Hne) | Hbad].
  - rewrite (post_schematic_split env req_body w instr Hinstr Hne) in Hrun.
    cbv zeta in Hrun.
    set (prompt := AiRouter.schematicPrompt instr) in *.
    assert (Hone : forall w1, trace w1 = trace (log_call (CallGemini prompt) w) ->
              exists calls, trace w1 = (trace w ++ calls)%list /\
                Forall is_schematic_call calls /\ List.length calls <= 3).
    { intros w1 Ht. exists [CallGemini prompt]. rewrite Ht.
      repeat split; [constructor; [exact I | constructor] | cbn; lia]. }
    destruct (gemini_text env (tick w) prompt) as [text | e];
      [| injection Hrun as <- <-; split; [reflexivity | now apply Hone]].
    destruct (truthy (AiRouter.body_field req_body "projectName"));
      [| injection Hrun as <- <-; split; [reflexivity | now apply Hone]].
    unfold bind in Hrun.
    destruct (Memory.saveSchematic env _ _ _) as [[[] | e] w2] eqn:Hsave;
      apply saveSchematic_frame in Hsave;
      destruct Hsave as (Hf2 & c2 & Ht2 & Hc2 & Hl2).
    + destruct (Memory.saveBlueprintFile env _ _ w2) as [[[] | e] w3] eqn:Hfile;
        apply saveBlueprintFile_frame in Hfile;
        destruct Hfile as (Hf3 & c3 & Ht3 & Hc3 & Hl3);
        injection Hrun as <- <-;
        (split; [cbn [profile_file schematic_error_logged log_console log_call] in *; congruence |]);
        exists ([CallGemini prompt] ++ c2 ++ c3)%list;
        (split; [cbn [trace schematic_error_logged log_console] in *;
                 rewrite Ht3, Ht2; cbn [trace log_call]; now rewrite <- !app_assoc |]);
        (split; [apply Forall_app; split; [constructor; [exact I | constructor] |];
                 apply Forall_app; split; assumption
                | rewrite !length_app; cbn; lia]).
    + injection Hrun as <- <-.
      split; [cbn [profile_file schematic_error_logged log_console log_call] in *; congruence |].
      exists ([CallGemini prompt] ++ c2)%list.
      split; [cbn [trace schematic_error_logged log_console] in *;
              rewrite Ht2; cbn [trace log_call]; now rewrite <- !app_assoc |].
      split; [apply Forall_app; split; [constructor; [exact I | constructor] | assumption]
             | rewrite !length_app; cbn; lia].
  - rewrite (invalid_instructions_rejected env req_body w Hbad) in Hrun.
    injection Hrun as <- <-. split; [reflexivity |].
    exists []. rewrite app_nil_r. repeat split; [constructor | cbn; lia].
Qed.

Lemma schematic_route_calls_witness :
  let env := Sample.env_with Sample.groq_down (Sample.gemini_says Sample.blueprint_text)
               Sample.no_fault in
  let run := AiRouter.post_schematic env Sample.schematic_request Sample.world0 in
  profile_file (snd run) = None /\
  exists calls, trace (snd run) = calls /\ Forall is_schematic_call calls /\
    List.length calls <= 3.
Proof.
  intros env run. unfold run.
  destruct (AiRouter.post_schematic env Sample.schematic_request Sample.world0)
    as [res w'] eqn:Hrun.
  destruct (schematic_route_calls env Sample.schematic_request Sample.world0 res w' Hrun)
    as (Hfile & calls & Ht & Hc & Hl).
  split; [exact Hfile |]. exists calls. auto.
Defined.

Lemma schematics_of_with_schematic p blueprint w :
  schematics_of (with_schematic p blueprint w) p = (schematics_of w p ++ [blueprint])%list.
Proof.
  unfold schematics_of, with_schematic, Memory.project_or_new. cbn.
  rewrite lookup_insert_eq. cbn. now destruct (projects w !! p).
Qed.

Lemma conversation_of_with_schematic p q blueprint w :
  conversation_of (with_schematic p blueprint w) q = conversation_of w q.
Proof.
  unfold conversation_of, with_schematic, Memory.project_or_new. cbn.
  destruct (decide (p = q)) as [-> | Hne].
  - rewrite lookup_insert_eq. cbn. now destruct (projects w !! q).
  - now rewrite lookup_insert_ne.
Qed.

(** X15: with a project name and sinks that accept, the schematic route
    hands the very blueprint it returns -- parsed and enriched, or degraded
    to the parse error -- first to the project store and then to the file
    sink, after the one call of the blueprint model; each sink gets it
    once, and no conversation changes. *)
Theorem schematic_persists_what_it_returns env (req_body : jsval) (w : World)
    (instr text p : string) :
  AiRouter.body_field req_body "instructions" = JStr instr -> instr <> "" ->
  AiRouter.body_field req_body "projectName" = JStr p -> p <> "" ->
  gemini_text env (tick w) (AiRouter.schematicPrompt instr) = Ok text ->
  let blueprint := AiRouter.withStressEstimate env (AiRouter.parsedBlueprint env text) in
  store_fault env (tick w + 1) (CallSaveSchematic p blueprint) = None ->
  store_fault env (tick w + 2) (CallSaveBlueprintFile p blueprint) = None ->
  exists w',
    AiRouter.post_schematic env req_body w = (Ok (schematic_ok blueprint), w') /\
    trace w' =
      (trace w ++
       [CallGemini (AiRouter.schematicPrompt instr);
        CallSaveSchematic p blueprint;
        CallSaveBlueprintFile p blueprint])%list /\
    schematics_of w' p = (schematics_of w p ++ [blueprint])%list /\
    blueprint_files w' = (blueprint_files w ++ [(p, blueprint)])%list /\
    (forall q, conversation_of w' q = conversation_of w q).
Proof.
  intros Hinstr Hne Hproj Hp Htext blueprint Hok1 Hok2.
  rewrite (post_schematic_split env req_body w instr Hinstr Hne). cbv zeta.
  rewrite Htext, Hproj, (truthy_string p Hp). fold blueprint. unfold bind.
  set (w1 := log_call (CallGemini (AiRouter.schematicPrompt instr)) w).
  assert (Ht1 : tick w1 = tick w + 1) by (unfold w1; rewrite tick_log_call; lia).
  rewrite (saveSchematic_run env (JStr p) p blueprint w1 eq_refl), Ht1, Hok1.
  set (w2 := with_schematic p blueprint (log_call (CallSaveSchematic p blueprint) w1)).
  assert (Ht2 : tick w2 = tick w + 2)
    by (change (tick w2) with (tick (log_call (CallSaveSchematic p blueprint) w1));
        rewrite tick_log_call; lia).
  rewrite (saveBlueprintFile_run env (JStr p) p blueprint w2 eq_refl), Ht2, Hok2.
  eexists. split; [reflexivity |].
  split; [cbn; now rewrite <- !app_assoc |].
  split; [exact (schematics_of_with_schematic p blueprint w) |].
  split; [reflexivity |].
  intros q. exact (conversation_of_with_schematic p q blueprint w).
Qed.

Lemma schematic_persists_what_it_returns_witness :
  let env := Sample.env_with Sample.groq_down (Sample.gemini_says Sample.prose)
               Sample.no_fault in
  let blueprint := degraded (SyntaxError "Unexpected token") Sample.prose in
  exists w',
    AiRouter.post_schematic env Sample.schematic_request Sample.world0 =
      (Ok (schematic_ok blueprint), w') /\
    schematics_of w' "p1" = [blueprint] /\
    blueprint_files w' = [("p1", blueprint)].
Proof.
  intros env blueprint.
  destruct (schematic_persists_what_it_returns env Sample.schematic_request Sample.world0
              "a windmill" Sample.prose "p1")
    as (w' & Hrun & _ & Hstore & Hfiles & _);
    try reflexivity; try discriminate.
  exists w'. split; [exact Hrun |]. split; [exact Hstore | exact Hfiles].
Defined.

(** X16: failures of the schematic route after validation.  Each is
    answered 500 Schematic AI error with the text of the error.  When the
    blueprint model fails nothing else is called; when the project store
    refuses the blueprint the file sink is never called; when the file sink
    fails the project store has already taken the blueprint, and keeps
    it. *)
Theorem schematic_failures env (req_body : jsval) (w : World) (instr p : string) :
  AiRouter.body_field req_body "instructions" = JStr instr -> instr <> "" ->
  AiRouter.body_field req_body "projectName" = JStr p -> p <> "" ->
  let prompt := AiRouter.schematicPrompt instr in
  (forall e,
     gemini_text env (tick w) prompt = Throw e ->
     AiRouter.post_schematic env req_body w =
       (Ok (schematic_failed e), schematic_error_logged e (log_call (CallGemini prompt) w))) /\
  (forall text e,
     gemini_text env (tick w) prompt = Ok text ->
     let blueprint := AiRouter.withStressEstimate env (AiRouter.parsedBlueprint env text) in
     store_fault env (tick w + 1) (CallSaveSchematic p blueprint) = Some e ->
     exists w',
       AiRouter.post_schematic env req_body w = (Ok (schematic_failed e), w') /\
       trace w' = (trace w ++ [CallGemini prompt; CallSaveSchematic p blueprint])%list /\
       projects w' = projects w /\ blueprint_files w' = blueprint_files w) /\
  (forall text e,
     gemini_text env (tick w) prompt = Ok text ->
     let blueprint := AiRouter.withStressEstimate env (AiRouter.parsedBlueprint env text) in
     store_fault env (tick w + 1) (CallSaveSchematic p blueprint) = None ->
     store_fault env (tick w + 2) (CallSaveBlueprintFile p blueprint) = Some e ->
     exists w',
       AiRouter.post_schematic env req_body w = (Ok (schematic_failed e), w') /\
       trace w' =
         (trace w ++ [CallGemini prompt; CallSaveSchematic p blueprint;
                      CallSaveBlueprintFile p blueprint])%list /\
       schematics_of w' p = (schematics_of w p ++ [blueprint])%list /\
       blueprint_files w' = blueprint_files w).
Proof.
  intros Hinstr Hne Hproj Hp prompt.
  pose proof (post_schematic_split env req_body w instr Hinstr Hne) as Hsplit.
  cbv zeta in Hsplit. fold prompt in Hsplit.
  rewrite Hproj, (truthy_string p Hp) in Hsplit.
  set (w1 := log_call (CallGemini prompt) w) in *.
  assert (Ht1 : tick w1 = tick w + 1) by (unfold w1; rewrite tick_log_call; lia).
  split; [| split].
  - intros e He. now rewrite He in Hsplit.
  - intros text e Htext blueprint Hfault.
    rewrite Htext in Hsplit. fold blueprint in Hsplit. unfold bind in Hsplit.
    rewrite (saveSchematic_run env (JStr p) p blueprint w1 eq_refl), Ht1, Hfault in Hsplit.
    eexists. split; [exact Hsplit |].
    split; [cbn; now rewrite <- !app_assoc |]. split; reflexivity.
  - intros text e Htext blueprint Hok Hfault.
    rewrite Htext in Hsplit. fold blueprint in Hsplit. unfold bind in Hsplit.
    rewrite (saveSchematic_run env (JStr p) p blueprint w1 eq_refl), Ht1, Hok in Hsplit.
    set (w2 := with_schematic p blueprint (log_call (CallSaveSchematic p blueprint) w1)) in *.
    assert (Ht2 : tick w2 = tick w + 2)
      by (change (tick w2) with (tick (log_call (CallSaveSchematic p blueprint) w1));
          rewrite tick_log_call; lia).
    rewrite (saveBlueprintFile_run env (JStr p) p blueprint w2 eq_refl), Ht2, Hfault in Hsplit.
    eexists. split; [exact Hsplit |].
    split; [cbn; now rewrite <- !app_assoc |].
    split; [exact (schematics_of_with_schematic p blueprint w) | reflexivity].
Qed.

Lemma schematic_failures_witness :
  let env := Sample.env_with Sample.groq_down (Sample.gemini_says Sample.blueprint_text)
               MoreSamples.fault_on_blueprint_file in
  let blueprint := AiRouter.withStressEstimate env Sample.blueprint_value in
  store_fault env 2 (CallSaveBlueprintFile "p1" blueprint) = Some Sample.disk_error /\
  exists w',
    AiRouter.post_schematic env Sample.schematic_request Sample.world0 =
      (Ok (schematic_failed Sample.disk_error), w') /\
    schematics_of w' "p1" = [blueprint] /\
    blueprint_files w' = [].
Proof.
  intros env blueprint. split; [reflexivity |].
  destruct (schematic_failures env Sample.schematic_request Sample.world0 "a windmill" "p1")
    as (_ & _ & Hfile); try reflexivity; try discriminate.
  destruct (Hfile Sample.blueprint_text Sample.disk_error eq_refl eq_refl eq_refl)
    as (w' & Hrun & _ & Hstore & Hfiles).
  exists w'. split; [exact Hrun |]. split; [exact Hstore | exact Hfiles].
Defined.

(** ** Letter case and the keywords *)

Lemma lower_unit_capital (c : ascii) :
  65 <= nat_of_ascii c <= 90 ->
  Str.lower_unit c = ascii_of_nat (nat_of_ascii c + 32).
Proof.
  intros Hc. unfold Str.lower_unit. cbv zeta.
  replace (Nat.leb 65 (nat_of_ascii c)) with true by (symmetry; apply Nat.leb_le; lia).
  replace (Nat.leb (nat_of_ascii c) 90) with true by (symmetry; apply Nat.leb_le; lia).
  reflexivity.
Qed.

Lemma lower_unit_small (c : ascii) :
  97 <= nat_of_ascii c <= 122 -> Str.lower_unit c = c.
Proof.
  intros Hc. unfold Str.lower_unit. cbv zeta.
  replace (Nat.leb (nat_of_ascii c) 90) with false by (symmetry; apply Nat.leb_gt; lia).
  replace (Nat.leb 192 (nat_of_ascii c)) with false by (symmetry; apply Nat.leb_gt; lia).
  now rewrite andb_false_r.
Qed.

Lemma lower_unit_pair (c d : ascii) :
  65 <= nat_of_ascii c <= 90 -> nat_of_ascii d = nat_of_ascii c + 32 ->
  Str.lower_unit c = Str.lower_unit d.
Proof.
  intros Hc Hd.
  rewrite (lower_unit_capital c Hc), (lower_unit_small d) by lia.
  now rewrite <- Hd, ascii_nat_embedding.
Qed.

Lemma lower_unit_same_letter (c d : ascii) :
  same_letter c d -> Str.lower_unit c = Str.lower_unit d.
Proof.
  intros [-> | [[Hc Hd] | [Hd Hc]]]; [reflexivity | |].
  - now apply lower_unit_pair.
  - symmetry. now apply lower_unit_pair.
Qed.

Lemma toLowerCase_same (a b : string) :
  same_up_to_case a b -> Str.toLowerCase a = Str.toLowerCase b.
Proof.
  induction 1 as [| c d a b Hcd _ IH]; [reflexivity |].
  cbn [Str.toLowerCase]. now rewrite (lower_unit_same_letter c d Hcd), IH.
Qed.

Lemma toLowerCase_app (a b : string) :
  Str.toLowerCase (a +:+ b) = Str.toLowerCase a +:+ Str.toLowerCase b.
Proof.
  induction a as [| c a IH]; [now rewrite !append_nil_l |].
  rewrite append_cons. cbn [Str.toLowerCase]. now rewrite append_cons, IH.
Qed.

(** X17: the keyword heuristic does not see the case of the letters A to
    Z.  Two messages of the same length whose code units are pairwise
    equal or the capital and the small form of one letter get the same
    mode; and a message that contains one of the terms create-and-a-space,
    factory or kinetic in any mix of capitals and small letters, anywhere,
    is a Create message. *)
Theorem keywordMode_ignores_case (a b : string) :
  same_up_to_case a b ->
  AiRouter.keywordMode a = AiRouter.keywordMode b /\
  (forall before after,
     In b ["create "; "factory"; "kinetic"] ->
     AiRouter.keywordMode (before +:+ a +:+ after) = "create").
Proof.
  intros Hab. pose proof (toLowerCase_same a b Hab) as Hlow. split.
  - unfold AiRouter.keywordMode. now rewrite Hlow.
  - intros before after Hin.
    apply (proj1 (keywordMode_cases (before +:+ a +:+ after))).
    rewrite !toLowerCase_app, Hlow. exists b. split; [exact Hin |].
    exists (Str.toLowerCase before), (Str.toLowerCase after).
    simpl in Hin. destruct Hin as [<- | [<- | [<- | []]]]; reflexivity.
Qed.

Lemma keywordMode_ignores_case_witness :
  same_up_to_case "FacTory" "factory" /\
  AiRouter.keywordMode "FacTory" = AiRouter.keywordMode "factory" /\
  AiRouter.keywordMode ("Build a " +:+ "FacTory" +:+ " for iron") = "create".
Proof.
  assert (Hsame : same_up_to_case "FacTory" "factory").
  { repeat (apply same_unit;
            [first [ left; reflexivity
                   | right; left; split; [vm_compute; lia | reflexivity] ] |]).
    apply same_empty. }
  destruct (keywordMode_ignores_case "FacTory" "factory" Hsame) as [Hmode Hterm].
  split; [exact Hsame |]. split; [exact Hmode |].
  apply Hterm. simpl. tauto.
Defined.

(** ** The style route, further *)

(** X18: a field among tone, detail, emojis and formatting that the body
    of a style update lacks is present and undefined in the returned
    profile: the route passes it on as an undefined property, which
    overrides the default that [saveUserProfile] keeps for a key its
    argument does not have.  (When the write of the profile fails the
    route answers 500 instead and the file is as before.) *)
Theorem style_update_missing_field env (req_body : jsval) (w : World) (k : string) :
  In k ["tone"; "detail"; "emojis"; "formatting"] ->
  AiRouter.body_field req_body k = JUndefined ->
  exists profile : obj,
    AiRouter.post_style env req_body w =
      match fs_write_fault env (tick w) (JSON_stringify env (JObj profile)) with
      | None =>
          (Ok (mkResponse 200 (JObj [("ok", JBool true); ("profile", JObj profile)])),
           set_profile_file (Some (JSON_stringify env (JObj profile))) w)
      | Some e => (Ok style_failed, style_error_logged e w)
      end /\
    has_prop k profile = true /\
    lookup_prop k profile = JUndefined /\
    lookup_prop k UserProfile.defaultProfile <> JUndefined /\
    (forall style, has_prop k style = false ->
       lookup_prop k (spread UserProfile.defaultProfile style) =
         lookup_prop k UserProfile.defaultProfile).
Proof.
  intros Hin Hmissing. eexists. split; [apply post_style_run |].
  assert (Hkept : forall style, has_prop k style = false ->
            lookup_prop k (spread UserProfile.defaultProfile style) =
              lookup_prop k UserProfile.defaultProfile)
    by (intros style Hno; now rewrite spread_lookup, Hno).
  simpl in Hin.
  destruct Hin as [<- | [<- | [<- | [<- | []]]]];
    (split; [reflexivity |]); (split; [cbn; exact Hmissing |]);
    (split; [discriminate | exact Hkept]).
Qed.

Lemma style_update_missing_field_witness :
  AiRouter.body_field Sample.partial_style "detail" = JUndefined /\
  exists profile w',
    AiRouter.post_style Sample.env_down Sample.partial_style Sample.world0 =
      (Ok (mkResponse 200 (JObj [("ok", JBool true); ("profile", JObj profile)])), w') /\
    lookup_prop "detail" profile = JUndefined.
Proof.
  split; [reflexivity |].
  destruct (style_update_missing_field Sample.env_down Sample.partial_style Sample.world0
              "detail") as (profile & Hrun & _ & Hundef & _).
  - simpl. tauto.
  - reflexivity.
  - assert (Hdisk : forall t text, fs_write_fault Sample.env_down t text = None)
      by reflexivity.
    rewrite Hdisk in Hrun.
    exists profile. eexists. split; [exact Hrun | exact Hundef].
Defined.
